(* Shallow embedding of the wine inventory and catalog stores of
   server/storage.ts (MemStorage and DatabaseStorage, with the request
   handlers of server/routes.ts) and of the schema in shared/schema.ts. *)

From Stdlib Require Import ZArith Lia Ascii String List Sorted.
From stdpp Require Import base gmap strings list fin_maps.
Import ListNotations.
Open Scope Z_scope.

(* ------------------------------------------------------------------ *)
(** * Data model (shared/schema.ts) *)

(** [interface VintageStock { vintage: number; stock: number }] *)
Record VintageStock := mkVintageStock { vintage : Z; stock : Z }.

(** A row of the [wines] table ([typeof wines.$inferSelect]).  Nullable
    columns are [option]s ([None] is null or undefined). *)
Record Wine := mkWine {
  id : Z;
  userId : string;
  name : string;
  category : string;
  wine : option string;
  subType : option string;
  producer : option string;
  region : option string;
  country : option string;
  stockLevel : option Z;
  vintageStocks : option (list VintageStock);
  imageUrl : option string;
  rating : option Z;
  notes : option string;
  createdAt : string
}.

(** [InsertWine]: the wine row without [id] and [createdAt]. *)
Record InsertWine := mkInsertWine {
  ins_userId : string;
  ins_name : string;
  ins_category : string;
  ins_wine : option string;
  ins_subType : option string;
  ins_producer : option string;
  ins_region : option string;
  ins_country : option string;
  ins_stockLevel : option Z;
  ins_vintageStocks : option (list VintageStock);
  ins_imageUrl : option string;
  ins_rating : option Z;
  ins_notes : option string
}.

(** [Partial<InsertWine>]: every key may be absent ([None]); a present key
    carries the value of the column ([Some v], where [v] is itself an
    option for a nullable column). *)
Record WinePatch := mkWinePatch {
  p_userId : option string;
  p_name : option string;
  p_category : option string;
  p_wine : option (option string);
  p_subType : option (option string);
  p_producer : option (option string);
  p_region : option (option string);
  p_country : option (option string);
  p_stockLevel : option (option Z);
  p_vintageStocks : option (option (list VintageStock));
  p_imageUrl : option (option string);
  p_rating : option (option Z);
  p_notes : option (option string)
}.

Definition emptyPatch : WinePatch :=
  mkWinePatch None None None None None None None None None None None None None.

(** A row of the [wine_catalog] table. *)
Record WineCatalog := mkWineCatalog {
  cat_id : Z;
  cat_name : string;
  cat_category : string;
  cat_producer : option string;
  cat_region : option string;
  cat_country : option string
}.

(* ------------------------------------------------------------------ *)
(** * JavaScript helpers *)

(** Object spread of one key: [{ ...old, ...patch }] takes the patch's value
    when the key is present, the old one otherwise. *)
Definition spread {A} (patch : option A) (old : A) : A :=
  match patch with Some v => v | None => old end.

(** [{ ...wine, id, createdAt }] in [MemStorage.addWine]. *)
Definition wine_of_insert (w : InsertWine) (i : Z) (now : string) : Wine :=
  {| id := i; userId := ins_userId w; name := ins_name w;
     category := ins_category w; wine := ins_wine w; subType := ins_subType w;
     producer := ins_producer w; region := ins_region w;
     country := ins_country w; stockLevel := ins_stockLevel w;
     vintageStocks := ins_vintageStocks w; imageUrl := ins_imageUrl w;
     rating := ins_rating w; notes := ins_notes w; createdAt := now |}.

(** [{ ...existingWine, ...wine }] in [MemStorage.updateWine]. *)
Definition apply_patch (old : Wine) (p : WinePatch) : Wine :=
  {| id := id old;
     userId := spread (p_userId p) (userId old);
     name := spread (p_name p) (name old);
     category := spread (p_category p) (category old);
     wine := spread (p_wine p) (wine old);
     subType := spread (p_subType p) (subType old);
     producer := spread (p_producer p) (producer old);
     region := spread (p_region p) (region old);
     country := spread (p_country p) (country old);
     stockLevel := spread (p_stockLevel p) (stockLevel old);
     vintageStocks := spread (p_vintageStocks p) (vintageStocks old);
     imageUrl := spread (p_imageUrl p) (imageUrl old);
     rating := spread (p_rating p) (rating old);
     notes := spread (p_notes p) (notes old);
     createdAt := createdAt old |}.

(* ------------------------------------------------------------------ *)
(** * MemStorage: the in-memory wine store *)

Module Mem.

Record MemStorage := mkMemStorage {
  wineStore : gmap Z Wine;
  catalogStore : gmap Z WineCatalog;
  wineCurrentId : Z;
  catalogCurrentId : Z
}.

(** [constructor()] before the catalog load. *)
Definition init : MemStorage := mkMemStorage ∅ ∅ 1 1.

(** [Array.from(map.values())]; the enumeration order of the map (insertion
    order in JavaScript) is not modelled, only which values it yields. *)
Definition values {A} (m : gmap Z A) : list A := snd <$> map_to_list m.

Definition getWines (s : MemStorage) : list Wine := values (wineStore s).

Definition getWineById (s : MemStorage) (i : Z) : option Wine :=
  wineStore s !! i.

(** [const id = this.wineCurrentId++; ... this.wineStore.set(id, newWine)] *)
Definition addWine (s : MemStorage) (w : InsertWine) (now : string)
  : MemStorage * Wine :=
  let i := wineCurrentId s in
  let nw := wine_of_insert w i now in
  (mkMemStorage (<[i := nw]> (wineStore s)) (catalogStore s) (i + 1)
     (catalogCurrentId s), nw).

Definition updateWine (s : MemStorage) (i : Z) (p : WinePatch)
  : MemStorage * option Wine :=
  match wineStore s !! i with
  | None => (s, None)
  | Some old =>
      let nw := apply_patch old p in
      (mkMemStorage (<[i := nw]> (wineStore s)) (catalogStore s)
         (wineCurrentId s) (catalogCurrentId s), Some nw)
  end.

(** [return this.wineStore.delete(id)]: [Map.delete] answers whether the
    key was present. *)
Definition deleteWine (s : MemStorage) (i : Z) : MemStorage * bool :=
  (mkMemStorage (delete i (wineStore s)) (catalogStore s) (wineCurrentId s)
     (catalogCurrentId s),
   bool_decide (is_Some (wineStore s !! i))).

(** [Array.from(this.wineStore.values()).filter(wine => wine.category === category)] *)
Definition getWinesByCategory (s : MemStorage) (c : string) : list Wine :=
  List.filter (fun w => String.eqb (category w) c) (values (wineStore s)).

End Mem.

(* ------------------------------------------------------------------ *)
(** * Input validation (shared/schema.ts, [insertWineSchema]) *)

(** [createInsertSchema(wines)] (drizzle-zod 0.6 and later) types each
    column: [text] and [varchar] as [z.string()], [json] as any JSON value,
    so [category] is any string and [vintageStocks] any list, and the
    [integer] column [stock_level] as
    [z.number().int().gte(-2147483648).lte(2147483647)]. The [.extend]
    replaces the [rating] column by
    [z.number().min(1).max(5).nullable().optional()]. The types themselves
    are enforced by the Rocq record type (numbers are integers here, so
    [.int()] holds of every one). *)
Definition rating_ok (r : option Z) : bool :=
  match r with Some v => (1 <=? v) && (v <=? 5) | None => true end.

(** The 32-bit range of a Postgres [integer] column. *)
Definition int32_ok (n : Z) : bool := (-2147483648 <=? n) && (n <=? 2147483647).

(** [stock_level] is nullable: [null] (or an absent key) passes. *)
Definition stockLevel_ok (o : option Z) : bool :=
  match o with Some n => int32_ok n | None => true end.

Definition insertWineSchema_safeParse (w : InsertWine) : bool :=
  rating_ok (ins_rating w) && stockLevel_ok (ins_stockLevel w).

(** A check applied only when the key is present. *)
Definition present_ok {A} (f : A -> bool) (o : option A) : bool :=
  match o with Some v => f v | None => true end.

(** [insertWineSchema.partial()]: the same checks on the keys present. *)
Definition insertWineSchema_partial_safeParse (p : WinePatch) : bool :=
  present_ok rating_ok (p_rating p) && present_ok stockLevel_ok (p_stockLevel p).

(* ------------------------------------------------------------------ *)
(** * Request handlers (server/routes.ts) over the in-memory store *)

Inductive Response :=
  | Ok200Wines (ws : list Wine)
  | Ok200Wine (w : Wine)
  | Created201 (w : Wine)
  | NoContent204
  | BadRequest400
  | NotFound404.

Module Routes.
Import Mem.

(** [GET /api/wines]: [storage.getWines(userId)]; [getWines()] declares no
    parameter, so the argument passed by the handler is dropped. *)
Definition get_wines (userIdOpt : option string) (s : MemStorage) : Response :=
  Ok200Wines (getWines s).

(** [POST /api/wines]: parse, then [addWine({...data, userId: sub})]. *)
Definition post_wine (s : MemStorage) (sub : string) (body : InsertWine)
  (now : string) : MemStorage * Response :=
  if insertWineSchema_safeParse body then
    let data := {| ins_userId := sub; ins_name := ins_name body;
                   ins_category := ins_category body; ins_wine := ins_wine body;
                   ins_subType := ins_subType body;
                   ins_producer := ins_producer body;
                   ins_region := ins_region body;
                   ins_country := ins_country body;
                   ins_stockLevel := ins_stockLevel body;
                   ins_vintageStocks := ins_vintageStocks body;
                   ins_imageUrl := ins_imageUrl body;
                   ins_rating := ins_rating body; ins_notes := ins_notes body |} in
    let '(s', nw) := addWine s data now in (s', Created201 nw)
  else (s, BadRequest400).

(** [PATCH /api/wines/:id] (the id is already a parsed number). *)
Definition patch_wine (s : MemStorage) (i : Z) (body : WinePatch)
  : MemStorage * Response :=
  if insertWineSchema_partial_safeParse body then
    match updateWine s i body with
    | (s', Some w) => (s', Ok200Wine w)
    | (s', None) => (s', NotFound404)
    end
  else (s, BadRequest400).

(** [GET /api/wines/:id] (the id is already a parsed number). *)
Definition get_wine (s : MemStorage) (i : Z) : Response :=
  match getWineById s i with
  | Some w => Ok200Wine w
  | None => NotFound404
  end.

(** [GET /api/wines/category/:category]: [storage.getWinesByCategory(category,
    userId)]; [getWinesByCategory] declares one parameter, so the user id
    is dropped. *)
Definition get_wines_by_category (c : string) (userIdOpt : option string)
  (s : MemStorage) : Response :=
  Ok200Wines (getWinesByCategory s c).

(** [DELETE /api/wines/:id]: 404 when [deleteWine] answers false, else 204. *)
Definition delete_wine (s : MemStorage) (i : Z) : MemStorage * Response :=
  let '(s', success) := deleteWine s i in
  (s', if success then NoContent204 else NotFound404).

End Routes.

(* ------------------------------------------------------------------ *)
(** * Catalog search *)

(** [String.prototype.toLowerCase]. A [string] holds the UTF-8 encoding
    of the JavaScript string (request bodies and CSV text have no unpaired
    surrogates, so [includes] on the bytes agrees with [includes] on the
    UTF-16 code units). The code points are lower-cased by the Unicode
    Default Case Conversion, full mappings (U+0130 gives two code points)
    and the Final_Sigma rule for U+03A3, as ICU does; the tables are those
    of Unicode 14.0. A byte that starts no valid UTF-8 sequence is kept. *)

Inductive piece := CP (z : Z) | Raw (a : ascii).

Definition byte_val (a : ascii) : Z := Z.of_N (N_of_ascii a).

Definition cont (a : ascii) : bool := (128 <=? byte_val a) && (byte_val a <=? 191).

Fixpoint utf8_decode (s : string) : list piece :=
  match s with
  | EmptyString => []
  | String a s1 =>
    let b := byte_val a in
    if b <? 128 then CP b :: utf8_decode s1 else
    match s1 with
    | EmptyString => [Raw a]
    | String a1 s2 =>
      if (194 <=? b) && (b <=? 223) && cont a1 then
        CP ((b - 192) * 64 + (byte_val a1 - 128)) :: utf8_decode s2
      else
      match s2 with
      | EmptyString => Raw a :: utf8_decode s1
      | String a2 s3 =>
        let z3 := (b - 224) * 4096 + (byte_val a1 - 128) * 64 + (byte_val a2 - 128) in
        if (224 <=? b) && (b <=? 239) && cont a1 && cont a2 && (2048 <=? z3)
           && negb ((55296 <=? z3) && (z3 <=? 57343)) then
          CP z3 :: utf8_decode s3
        else
        match s3 with
        | EmptyString => Raw a :: utf8_decode s1
        | String a3 s4 =>
          let z4 := (b - 240) * 262144 + (byte_val a1 - 128) * 4096
                    + (byte_val a2 - 128) * 64 + (byte_val a3 - 128) in
          if (240 <=? b) && (b <=? 244) && cont a1 && cont a2 && cont a3
             && (65536 <=? z4) && (z4 <=? 1114111) then
            CP z4 :: utf8_decode s4
          else Raw a :: utf8_decode s1
        end
      end
    end
  end.

Definition ascii_of_Z (z : Z) : ascii := ascii_of_N (Z.to_N z).

Definition encode_piece (p : piece) : string :=
  match p with
  | Raw a => String a EmptyString
  | CP z =>
    if z <? 128 then String (ascii_of_Z z) EmptyString
    else if z <? 2048 then
      String (ascii_of_Z (192 + z / 64)) (String (ascii_of_Z (128 + z mod 64)) EmptyString)
    else if z <? 65536 then
      String (ascii_of_Z (224 + z / 4096))
        (String (ascii_of_Z (128 + (z / 64) mod 64))
          (String (ascii_of_Z (128 + z mod 64)) EmptyString))
    else
      String (ascii_of_Z (240 + z / 262144))
        (String (ascii_of_Z (128 + (z / 4096) mod 64))
          (String (ascii_of_Z (128 + (z / 64) mod 64))
            (String (ascii_of_Z (128 + z mod 64)) EmptyString)))
  end.

Fixpoint utf8_encode (l : list piece) : string :=
  match l with
  | [] => EmptyString
  | p :: l' => String.append (encode_piece p) (utf8_encode l')
  end.

(** [(first, last, delta, step)]: the code points [first], [first + step],
    ..., up to [last] lower-case to themselves plus [delta]. *)
Definition lower_rules : list (Z * Z * Z * Z) := [
  (65, 90, 32, 1); (192, 214, 32, 1); (216, 222, 32, 1); (256, 302, 1, 2);
  (306, 310, 1, 2); (313, 327, 1, 2); (330, 374, 1, 2); (376, 376, (-121), 1);
  (377, 381, 1, 2); (385, 385, 210, 1); (386, 388, 1, 2); (390, 390, 206, 1);
  (391, 391, 1, 1); (393, 394, 205, 1); (395, 395, 1, 1); (398, 398, 79, 1);
  (399, 399, 202, 1); (400, 400, 203, 1); (401, 401, 1, 1); (403, 403, 205, 1);
  (404, 404, 207, 1); (406, 406, 211, 1); (407, 407, 209, 1); (408, 408, 1, 1);
  (412, 412, 211, 1); (413, 413, 213, 1); (415, 415, 214, 1); (416, 420, 1, 2);
  (422, 422, 218, 1); (423, 423, 1, 1); (425, 425, 218, 1); (428, 428, 1, 1);
  (430, 430, 218, 1); (431, 431, 1, 1); (433, 434, 217, 1); (435, 437, 1, 2);
  (439, 439, 219, 1); (440, 440, 1, 1); (444, 444, 1, 1); (452, 452, 2, 1);
  (453, 453, 1, 1); (455, 455, 2, 1); (456, 456, 1, 1); (458, 458, 2, 1);
  (459, 475, 1, 2); (478, 494, 1, 2); (497, 497, 2, 1); (498, 500, 1, 2);
  (502, 502, (-97), 1); (503, 503, (-56), 1); (504, 542, 1, 2); (544, 544, (-130), 1);
  (546, 562, 1, 2); (570, 570, 10795, 1); (571, 571, 1, 1); (573, 573, (-163), 1);
  (574, 574, 10792, 1); (577, 577, 1, 1); (579, 579, (-195), 1); (580, 580, 69, 1);
  (581, 581, 71, 1); (582, 590, 1, 2); (880, 882, 1, 2); (886, 886, 1, 1);
  (895, 895, 116, 1); (902, 902, 38, 1); (904, 906, 37, 1); (908, 908, 64, 1);
  (910, 911, 63, 1); (913, 929, 32, 1); (931, 939, 32, 1); (975, 975, 8, 1);
  (984, 1006, 1, 2); (1012, 1012, (-60), 1); (1015, 1015, 1, 1); (1017, 1017, (-7), 1);
  (1018, 1018, 1, 1); (1021, 1023, (-130), 1); (1024, 1039, 80, 1); (1040, 1071, 32, 1);
  (1120, 1152, 1, 2); (1162, 1214, 1, 2); (1216, 1216, 15, 1); (1217, 1229, 1, 2);
  (1232, 1326, 1, 2); (1329, 1366, 48, 1); (4256, 4293, 7264, 1); (4295, 4295, 7264, 1);
  (4301, 4301, 7264, 1); (5024, 5103, 38864, 1); (5104, 5109, 8, 1); (7312, 7354, (-3008), 1);
  (7357, 7359, (-3008), 1); (7680, 7828, 1, 2); (7838, 7838, (-7615), 1); (7840, 7934, 1, 2);
  (7944, 7951, (-8), 1); (7960, 7965, (-8), 1); (7976, 7983, (-8), 1); (7992, 7999, (-8), 1);
  (8008, 8013, (-8), 1); (8025, 8031, (-8), 2); (8040, 8047, (-8), 1); (8072, 8079, (-8), 1);
  (8088, 8095, (-8), 1); (8104, 8111, (-8), 1); (8120, 8121, (-8), 1); (8122, 8123, (-74), 1);
  (8124, 8124, (-9), 1); (8136, 8139, (-86), 1); (8140, 8140, (-9), 1); (8152, 8153, (-8), 1);
  (8154, 8155, (-100), 1); (8168, 8169, (-8), 1); (8170, 8171, (-112), 1); (8172, 8172, (-7), 1);
  (8184, 8185, (-128), 1); (8186, 8187, (-126), 1); (8188, 8188, (-9), 1); (8486, 8486, (-7517), 1);
  (8490, 8490, (-8383), 1); (8491, 8491, (-8262), 1); (8498, 8498, 28, 1); (8544, 8559, 16, 1);
  (8579, 8579, 1, 1); (9398, 9423, 26, 1); (11264, 11311, 48, 1); (11360, 11360, 1, 1);
  (11362, 11362, (-10743), 1); (11363, 11363, (-3814), 1); (11364, 11364, (-10727), 1); (11367, 11371, 1, 2);
  (11373, 11373, (-10780), 1); (11374, 11374, (-10749), 1); (11375, 11375, (-10783), 1); (11376, 11376, (-10782), 1);
  (11378, 11378, 1, 1); (11381, 11381, 1, 1); (11390, 11391, (-10815), 1); (11392, 11490, 1, 2);
  (11499, 11501, 1, 2); (11506, 11506, 1, 1); (42560, 42604, 1, 2); (42624, 42650, 1, 2);
  (42786, 42798, 1, 2); (42802, 42862, 1, 2); (42873, 42875, 1, 2); (42877, 42877, (-35332), 1);
  (42878, 42886, 1, 2); (42891, 42891, 1, 1); (42893, 42893, (-42280), 1); (42896, 42898, 1, 2);
  (42902, 42920, 1, 2); (42922, 42922, (-42308), 1); (42923, 42923, (-42319), 1); (42924, 42924, (-42315), 1);
  (42925, 42925, (-42305), 1); (42926, 42926, (-42308), 1); (42928, 42928, (-42258), 1); (42929, 42929, (-42282), 1);
  (42930, 42930, (-42261), 1); (42931, 42931, 928, 1); (42932, 42946, 1, 2); (42948, 42948, (-48), 1);
  (42949, 42949, (-42307), 1); (42950, 42950, (-35384), 1); (42951, 42953, 1, 2); (42960, 42960, 1, 1);
  (42966, 42968, 1, 2); (42997, 42997, 1, 1); (65313, 65338, 32, 1); (66560, 66599, 40, 1);
  (66736, 66771, 40, 1); (66928, 66938, 39, 1); (66940, 66954, 39, 1); (66956, 66962, 39, 1);
  (66964, 66965, 39, 1); (68736, 68786, 64, 1); (71840, 71871, 32, 1); (93760, 93791, 32, 1);
  (125184, 125217, 34, 1)
]%Z.

(** Case_Ignorable code points, as ranges [(first, last)]. *)
Definition case_ignorable_ranges : list (Z * Z) := [
  (39, 39); (46, 46); (58, 58); (94, 94); (96, 96); (168, 168);
  (173, 173); (175, 175); (180, 180); (183, 184); (688, 879); (884, 885);
  (890, 890); (900, 901); (903, 903); (1155, 1161); (1369, 1369); (1375, 1375);
  (1425, 1469); (1471, 1471); (1473, 1474); (1476, 1477); (1479, 1479); (1524, 1524);
  (1536, 1541); (1552, 1562); (1564, 1564); (1600, 1600); (1611, 1631); (1648, 1648);
  (1750, 1757); (1759, 1768); (1770, 1773); (1807, 1807); (1809, 1809); (1840, 1866);
  (1958, 1968); (2027, 2037); (2042, 2042); (2045, 2045); (2070, 2093); (2137, 2139);
  (2184, 2184); (2192, 2193); (2200, 2207); (2249, 2306); (2362, 2362); (2364, 2364);
  (2369, 2376); (2381, 2381); (2385, 2391); (2402, 2403); (2417, 2417); (2433, 2433);
  (2492, 2492); (2497, 2500); (2509, 2509); (2530, 2531); (2558, 2558); (2561, 2562);
  (2620, 2620); (2625, 2626); (2631, 2632); (2635, 2637); (2641, 2641); (2672, 2673);
  (2677, 2677); (2689, 2690); (2748, 2748); (2753, 2757); (2759, 2760); (2765, 2765);
  (2786, 2787); (2810, 2815); (2817, 2817); (2876, 2876); (2879, 2879); (2881, 2884);
  (2893, 2893); (2901, 2902); (2914, 2915); (2946, 2946); (3008, 3008); (3021, 3021);
  (3072, 3072); (3076, 3076); (3132, 3132); (3134, 3136); (3142, 3144); (3146, 3149);
  (3157, 3158); (3170, 3171); (3201, 3201); (3260, 3260); (3263, 3263); (3270, 3270);
  (3276, 3277); (3298, 3299); (3328, 3329); (3387, 3388); (3393, 3396); (3405, 3405);
  (3426, 3427); (3457, 3457); (3530, 3530); (3538, 3540); (3542, 3542); (3633, 3633);
  (3636, 3642); (3654, 3662); (3761, 3761); (3764, 3772); (3782, 3782); (3784, 3789);
  (3864, 3865); (3893, 3893); (3895, 3895); (3897, 3897); (3953, 3966); (3968, 3972);
  (3974, 3975); (3981, 3991); (3993, 4028); (4038, 4038); (4141, 4144); (4146, 4151);
  (4153, 4154); (4157, 4158); (4184, 4185); (4190, 4192); (4209, 4212); (4226, 4226);
  (4229, 4230); (4237, 4237); (4253, 4253); (4348, 4348); (4957, 4959); (5906, 5908);
  (5938, 5939); (5970, 5971); (6002, 6003); (6068, 6069); (6071, 6077); (6086, 6086);
  (6089, 6099); (6103, 6103); (6109, 6109); (6155, 6159); (6211, 6211); (6277, 6278);
  (6313, 6313); (6432, 6434); (6439, 6440); (6450, 6450); (6457, 6459); (6679, 6680);
  (6683, 6683); (6742, 6742); (6744, 6750); (6752, 6752); (6754, 6754); (6757, 6764);
  (6771, 6780); (6783, 6783); (6823, 6823); (6832, 6862); (6912, 6915); (6964, 6964);
  (6966, 6970); (6972, 6972); (6978, 6978); (7019, 7027); (7040, 7041); (7074, 7077);
  (7080, 7081); (7083, 7085); (7142, 7142); (7144, 7145); (7149, 7149); (7151, 7153);
  (7212, 7219); (7222, 7223); (7288, 7293); (7376, 7378); (7380, 7392); (7394, 7400);
  (7405, 7405); (7412, 7412); (7416, 7417); (7468, 7530); (7544, 7544); (7579, 7679);
  (8125, 8125); (8127, 8129); (8141, 8143); (8157, 8159); (8173, 8175); (8189, 8190);
  (8203, 8207); (8216, 8217); (8228, 8228); (8231, 8231); (8234, 8238); (8288, 8292);
  (8294, 8303); (8305, 8305); (8319, 8319); (8336, 8348); (8400, 8432); (11388, 11389);
  (11503, 11505); (11631, 11631); (11647, 11647); (11744, 11775); (11823, 11823); (12293, 12293);
  (12330, 12333); (12337, 12341); (12347, 12347); (12441, 12446); (12540, 12542); (40981, 40981);
  (42232, 42237); (42508, 42508); (42607, 42610); (42612, 42621); (42623, 42623); (42652, 42655);
  (42736, 42737); (42752, 42785); (42864, 42864); (42888, 42890); (42994, 42996); (43000, 43001);
  (43010, 43010); (43014, 43014); (43019, 43019); (43045, 43046); (43052, 43052); (43204, 43205);
  (43232, 43249); (43263, 43263); (43302, 43309); (43335, 43345); (43392, 43394); (43443, 43443);
  (43446, 43449); (43452, 43453); (43471, 43471); (43493, 43494); (43561, 43566); (43569, 43570);
  (43573, 43574); (43587, 43587); (43596, 43596); (43632, 43632); (43644, 43644); (43696, 43696);
  (43698, 43700); (43703, 43704); (43710, 43711); (43713, 43713); (43741, 43741); (43756, 43757);
  (43763, 43764); (43766, 43766); (43867, 43871); (43881, 43883); (44005, 44005); (44008, 44008);
  (44013, 44013); (64286, 64286); (64434, 64450); (65024, 65039); (65043, 65043); (65056, 65071);
  (65106, 65106); (65109, 65109); (65279, 65279); (65287, 65287); (65294, 65294); (65306, 65306);
  (65342, 65342); (65344, 65344); (65392, 65392); (65438, 65439); (65507, 65507); (65529, 65531);
  (66045, 66045); (66272, 66272); (66422, 66426); (67456, 67461); (67463, 67504); (67506, 67514);
  (68097, 68099); (68101, 68102); (68108, 68111); (68152, 68154); (68159, 68159); (68325, 68326);
  (68900, 68903); (69291, 69292); (69446, 69456); (69506, 69509); (69633, 69633); (69688, 69702);
  (69744, 69744); (69747, 69748); (69759, 69761); (69811, 69814); (69817, 69818); (69821, 69821);
  (69826, 69826); (69837, 69837); (69888, 69890); (69927, 69931); (69933, 69940); (70003, 70003);
  (70016, 70017); (70070, 70078); (70089, 70092); (70095, 70095); (70191, 70193); (70196, 70196);
  (70198, 70199); (70206, 70206); (70367, 70367); (70371, 70378); (70400, 70401); (70459, 70460);
  (70464, 70464); (70502, 70508); (70512, 70516); (70712, 70719); (70722, 70724); (70726, 70726);
  (70750, 70750); (70835, 70840); (70842, 70842); (70847, 70848); (70850, 70851); (71090, 71093);
  (71100, 71101); (71103, 71104); (71132, 71133); (71219, 71226); (71229, 71229); (71231, 71232);
  (71339, 71339); (71341, 71341); (71344, 71349); (71351, 71351); (71453, 71455); (71458, 71461);
  (71463, 71467); (71727, 71735); (71737, 71738); (71995, 71996); (71998, 71998); (72003, 72003);
  (72148, 72151); (72154, 72155); (72160, 72160); (72193, 72202); (72243, 72248); (72251, 72254);
  (72263, 72263); (72273, 72278); (72281, 72283); (72330, 72342); (72344, 72345); (72752, 72758);
  (72760, 72765); (72767, 72767); (72850, 72871); (72874, 72880); (72882, 72883); (72885, 72886);
  (73009, 73014); (73018, 73018); (73020, 73021); (73023, 73029); (73031, 73031); (73104, 73105);
  (73109, 73109); (73111, 73111); (73459, 73460); (78896, 78904); (92912, 92916); (92976, 92982);
  (92992, 92995); (94031, 94031); (94095, 94111); (94176, 94177); (94179, 94180); (110576, 110579);
  (110581, 110587); (110589, 110590); (113821, 113822); (113824, 113827); (118528, 118573); (118576, 118598);
  (119143, 119145); (119155, 119170); (119173, 119179); (119210, 119213); (119362, 119364); (121344, 121398);
  (121403, 121452); (121461, 121461); (121476, 121476); (121499, 121503); (121505, 121519); (122880, 122886);
  (122888, 122904); (122907, 122913); (122915, 122916); (122918, 122922); (123184, 123197); (123566, 123566);
  (123628, 123631); (125136, 125142); (125252, 125259); (127995, 127999); (917505, 917505); (917536, 917631);
  (917760, 917999)
]%Z.

(** Cased code points that are not Case_Ignorable (the Final_Sigma test
    looks at a code point's casing only after skipping the case-ignorable
    ones). *)
Definition cased_ranges : list (Z * Z) := [
  (65, 90); (97, 122); (170, 170); (181, 181); (186, 186); (192, 214);
  (216, 246); (248, 442); (444, 447); (452, 659); (661, 687); (880, 883);
  (886, 887); (891, 893); (895, 895); (902, 902); (904, 906); (908, 908);
  (910, 929); (931, 1013); (1015, 1153); (1162, 1327); (1329, 1366); (1376, 1416);
  (4256, 4293); (4295, 4295); (4301, 4301); (4304, 4346); (4349, 4351); (5024, 5109);
  (5112, 5117); (7296, 7304); (7312, 7354); (7357, 7359); (7424, 7467); (7531, 7543);
  (7545, 7578); (7680, 7957); (7960, 7965); (7968, 8005); (8008, 8013); (8016, 8023);
  (8025, 8025); (8027, 8027); (8029, 8029); (8031, 8061); (8064, 8116); (8118, 8124);
  (8126, 8126); (8130, 8132); (8134, 8140); (8144, 8147); (8150, 8155); (8160, 8172);
  (8178, 8180); (8182, 8188); (8450, 8450); (8455, 8455); (8458, 8467); (8469, 8469);
  (8473, 8477); (8484, 8484); (8486, 8486); (8488, 8488); (8490, 8493); (8495, 8500);
  (8505, 8505); (8508, 8511); (8517, 8521); (8526, 8526); (8544, 8575); (8579, 8580);
  (9398, 9449); (11264, 11387); (11390, 11492); (11499, 11502); (11506, 11507); (11520, 11557);
  (11559, 11559); (11565, 11565); (42560, 42605); (42624, 42651); (42786, 42863); (42865, 42887);
  (42891, 42894); (42896, 42954); (42960, 42961); (42963, 42963); (42965, 42969); (42997, 42998);
  (43002, 43002); (43824, 43866); (43872, 43880); (43888, 43967); (64256, 64262); (64275, 64279);
  (65313, 65338); (65345, 65370); (66560, 66639); (66736, 66771); (66776, 66811); (66928, 66938);
  (66940, 66954); (66956, 66962); (66964, 66965); (66967, 66977); (66979, 66993); (66995, 67001);
  (67003, 67004); (68736, 68786); (68800, 68850); (71840, 71903); (93760, 93823); (119808, 119892);
  (119894, 119964); (119966, 119967); (119970, 119970); (119973, 119974); (119977, 119980); (119982, 119993);
  (119995, 119995); (119997, 120003); (120005, 120069); (120071, 120074); (120077, 120084); (120086, 120092);
  (120094, 120121); (120123, 120126); (120128, 120132); (120134, 120134); (120138, 120144); (120146, 120485);
  (120488, 120512); (120514, 120538); (120540, 120570); (120572, 120596); (120598, 120628); (120630, 120654);
  (120656, 120686); (120688, 120712); (120714, 120744); (120746, 120770); (120772, 120779); (122624, 122633);
  (122635, 122654); (125184, 125251); (127280, 127305); (127312, 127337); (127344, 127369)
]%Z.

Fixpoint apply_rules (rs : list (Z * Z * Z * Z)) (z : Z) : Z :=
  match rs with
  | [] => z
  | (lo, hi, d, st) :: rs' =>
      if (lo <=? z) && (z <=? hi) && (Z.modulo (z - lo) st =? 0) then z + d
      else apply_rules rs' z
  end.

Definition in_ranges (rs : list (Z * Z)) (z : Z) : bool :=
  existsb (fun '(lo, hi) => (lo <=? z) && (z <=? hi)) rs.

(** The full lower-case mapping of one code point other than U+03A3. *)
Definition lower_code_point (z : Z) : list Z :=
  if z =? 304 then [105; 775] else [apply_rules lower_rules z].

(** Final_Sigma: skipping case-ignorable code points, a cased one comes
    before, and none comes after. *)
Fixpoint next_is_cased (l : list piece) : bool :=
  match l with
  | [] => false
  | CP z :: l' =>
      if in_ranges case_ignorable_ranges z then next_is_cased l'
      else in_ranges cased_ranges z
  | Raw _ :: _ => false
  end.

Definition final_sigma (before_rev after : list piece) : bool :=
  next_is_cased before_rev && negb (next_is_cased after).

Fixpoint lower_pieces (before_rev : list piece) (l : list piece) : list piece :=
  match l with
  | [] => []
  | CP z :: l' =>
      (if z =? 931 then [CP (if final_sigma before_rev l' then 962 else 963)]
       else map CP (lower_code_point z))
      ++ lower_pieces (CP z :: before_rev) l'
  | Raw a :: l' => Raw a :: lower_pieces (Raw a :: before_rev) l'
  end.

Definition toLowerCase (s : string) : string :=
  utf8_encode (lower_pieces [] (utf8_decode s)).

(** [s.length]: the UTF-16 code units, two for a code point above U+FFFF. *)
Definition utf16_length (s : string) : nat :=
  fold_right (fun p n => match p with CP z => if z <? 65536 then S n else S (S n)
                                   | Raw _ => S n end) 0%nat (utf8_decode s).

(** [s.includes(q)]: [q] starts at some position of [s]. *)
Fixpoint includes (s q : string) : bool :=
  (String.prefix q s ||
   match s with
   | EmptyString => false
   | String _ s' => includes s' q
   end)%bool.

(** JavaScript truthiness of a string: the empty string is falsy. *)
Definition truthy (s : string) : bool := negb (String.eqb s EmptyString).

(** The filter predicate of [MemStorage.searchWineCatalog]. *)
Definition catalog_matches (lowerQuery : string) (e : WineCatalog) : bool :=
  (includes (toLowerCase (cat_name e)) lowerQuery ||
   match cat_producer e with
   | Some p => truthy p && includes (toLowerCase p) lowerQuery
   | None => false
   end)%bool.

Definition searchWineCatalog (s : Mem.MemStorage) (query : string)
  : list WineCatalog :=
  let lowerQuery := toLowerCase query in
  List.filter (catalog_matches lowerQuery) (Mem.values (Mem.catalogStore s)).

Definition getWineCatalog (s : Mem.MemStorage) : list WineCatalog :=
  Mem.values (Mem.catalogStore s).

(* ------------------------------------------------------------------ *)
(** * Catalog refresh from CSV *)

(** A record produced by [csv-parse] with [columns: true, trim: true]: one
    (trimmed) value per column of the header; [None] when the header has no
    such column. *)
Record CsvRecord := mkCsvRecord {
  r_name : option string;
  r_category : option string;
  r_producer : option string;
  r_region : option string;
  r_country : option string
}.

(** The file system as seen by the refresh: the parsed records of the file
    at [filePath] ([None] when it does not exist; the header-only file
    ['name,category,producer,region,country\n'] parses to no record) and
    the number of [fs.writeFileSync] calls made so far. *)
Record FileSystem := mkFileSystem {
  csvFile : option (list CsvRecord);
  fileWrites : nat
}.

(** [if (!fs.existsSync(filePath)) fs.writeFileSync(filePath, header)] *)
Definition ensure_csv (fs : FileSystem) : FileSystem :=
  match csvFile fs with
  | None => mkFileSystem (Some []) (S (fileWrites fs))
  | Some _ => fs
  end.

(** [v || d] for a column value. *)
Definition or_default (v : option string) (d : string) : string :=
  match v with Some x => if truthy x then x else d | None => d end.

(** [v || null] for a column value. *)
Definition or_null (v : option string) : option string :=
  match v with Some x => if truthy x then Some x else None | None => None end.

Module MemCatalog.
Import Mem.

(** The entry built by the ['readable'] handler of [MemStorage]. *)
Definition mem_entry (i : Z) (r : CsvRecord) : WineCatalog :=
  {| cat_id := i; cat_name := or_default (r_name r) "";
     cat_category := or_default (r_category r) "Other";
     cat_producer := Some (or_default (r_producer r) "");
     cat_region := Some (or_default (r_region r) "");
     cat_country := Some (or_default (r_country r) "") |}.

(** [const id = this.catalogCurrentId++; this.catalogStore.set(id, e)] for
    each record read. *)
Fixpoint load_records (store : gmap Z WineCatalog) (cur : Z)
  (rs : list CsvRecord) : gmap Z WineCatalog * Z :=
  match rs with
  | [] => (store, cur)
  | r :: rs' => load_records (<[cur := mem_entry cur r]> store) (cur + 1) rs'
  end.

Definition loadWineCatalogFromCSV (s : MemStorage) (fs : FileSystem)
  : MemStorage * FileSystem :=
  let fs1 := ensure_csv fs in
  let rs := match csvFile fs1 with Some rs => rs | None => [] end in
  let '(store, cur) := load_records (catalogStore s) (catalogCurrentId s) rs in
  (mkMemStorage (wineStore s) store (wineCurrentId s) cur, fs1).

End MemCatalog.

(* ------------------------------------------------------------------ *)
(** * DatabaseStorage: the same interface over the [wines] and
    [wine_catalog] tables *)

Module Db.

(** The two tables and their [serial] sequences. *)
Record DbState := mkDbState {
  wines_tbl : list Wine;
  wines_seq : Z;
  catalog_tbl : list WineCatalog;
  catalog_seq : Z
}.

(** The object a [db.delete(...)] query resolves to (the driver's query
    result); only its row count is modelled. *)
Record QueryResult := mkQueryResult { rowCount : nat }.

(** [!!result]: every JavaScript object is truthy, whatever its fields. *)
Definition not_not_object (r : QueryResult) : bool := true.

Definition getWineById (db : DbState) (i : Z) : option Wine :=
  List.find (fun w => Z.eqb (id w) i) (wines_tbl db).

(** [db.delete(wines).where(eq(wines.id, id))], then [return !!result]. *)
Definition deleteWine (db : DbState) (i : Z) : DbState * bool :=
  let kept := List.filter (fun w => negb (Z.eqb (id w) i)) (wines_tbl db) in
  let result := mkQueryResult (length (wines_tbl db) - length kept) in
  (mkDbState kept (wines_seq db) (catalog_tbl db) (catalog_seq db),
   not_not_object result).

(** [db.select().from(wineCatalog)]: the rows of the table. A SELECT
    without ORDER BY fixes no order; the list order here is one possible
    order, so what is proved about it holds up to permutation. *)
Definition getWineCatalog (db : DbState) : list WineCatalog := catalog_tbl db.

(** The [InsertWineCatalog] values pushed by the ['readable'] handler,
    given the id the [serial] column assigns on insert. *)
Definition db_entry (i : Z) (r : CsvRecord) : WineCatalog :=
  {| cat_id := i; cat_name := or_default (r_name r) "";
     cat_category := or_default (r_category r) "Other";
     cat_producer := or_null (r_producer r);
     cat_region := or_null (r_region r);
     cat_country := or_null (r_country r) |}.

(** [db.insert(wineCatalog).values(wines)]: ids from the sequence. *)
Fixpoint insert_entries (seq : Z) (rs : list CsvRecord)
  : list WineCatalog * Z :=
  match rs with
  | [] => ([], seq)
  | r :: rs' =>
      let '(es, seq') := insert_entries (seq + 1) rs' in
      (db_entry seq r :: es, seq')
  end.

Definition loadWineCatalogFromCSV (db : DbState) (fs : FileSystem)
  : DbState * FileSystem :=
  match csvFile fs with
  | None =>
      (* writeFileSync(filePath, header); resolve(); return; *)
      (db, mkFileSystem (Some []) (S (fileWrites fs)))
  | Some rs =>
      (* on 'end': db.delete(wineCatalog); insert if wines.length > 0 *)
      let '(tbl, seq) :=
        if Nat.ltb 0 (length rs) then insert_entries (catalog_seq db) rs
        else ([], catalog_seq db) in
      (mkDbState (wines_tbl db) (wines_seq db) tbl seq, fs)
  end.

End Db.

(* ------------------------------------------------------------------ *)
(** * A run of writes on the in-memory store *)

Inductive WineOp :=
  | OpAdd (w : InsertWine) (now : string)
  | OpUpdate (i : Z) (p : WinePatch)
  | OpDelete (i : Z).

(** Applies the operations in order; returns the final store and the ids
    assigned by the [addWine] calls, in order. *)
Fixpoint run (s : Mem.MemStorage) (ops : list WineOp)
  : Mem.MemStorage * list Z :=
  match ops with
  | [] => (s, [])
  | OpAdd w now :: ops' =>
      let '(s1, nw) := Mem.addWine s w now in
      let '(s2, ids) := run s1 ops' in (s2, id nw :: ids)
  | OpUpdate i p :: ops' => run (fst (Mem.updateWine s i p)) ops'
  | OpDelete i :: ops' => run (fst (Mem.deleteWine s i)) ops'
  end.

(* ------------------------------------------------------------------ *)
(** * Sample values *)

Definition red2020 (sl : Z) (vs : list VintageStock) : InsertWine :=
  mkInsertWine "u1" "Rioja" "Red" None None None None None (Some sl)
    (Some vs) None None None.

Definition sample_wine (i : Z) (owner : string) : Wine :=
  mkWine i owner "Rioja" "Red" None None None None None (Some 3)
    (Some [mkVintageStock 2020 3]) None None None "t0".

Definition sample_entry : WineCatalog :=
  mkWineCatalog 1 "Old Wine" "Red" (Some "P") (Some "") (Some "").

Definition sample_row : CsvRecord :=
  mkCsvRecord (Some "Chateau ABC") None (Some "X") None None.

Example toLowerCase_ex : toLowerCase "Chateau ABC" = "chateau abc".
Proof. reflexivity. Qed.

Example toLowerCase_accents_ex : toLowerCase "CHÂTEAU ÉLYSÉE" = "château élysée".
Proof. vm_compute. reflexivity. Qed.

Example toLowerCase_final_sigma_ex :
  toLowerCase "ΟΔΥΣΣΕΥΣ" = "οδυσσευς" /\ toLowerCase "Σ" = "σ" /\
  toLowerCase "İ" = "i̇".
Proof. vm_compute. repeat split. Qed.

Example utf16_length_ex :
  utf16_length "é" = 1%nat /\ utf16_length "ab" = 2%nat /\ utf16_length "𐐀" = 2%nat.
Proof. vm_compute. repeat split. Qed.

(** The example of the search: [CHÂTEAU] and [abc] both find [Château ABC]. *)
Example search_chateau_ex :
  let s := Mem.mkMemStorage ∅ {[1 := mkWineCatalog 1 "Château ABC" "Red" (Some "X") None None]} 1 2 in
  searchWineCatalog s "CHÂTEAU" = [mkWineCatalog 1 "Château ABC" "Red" (Some "X") None None] /\
  searchWineCatalog s "abc" = [mkWineCatalog 1 "Château ABC" "Red" (Some "X") None None].
Proof. vm_compute. split; reflexivity. Qed.

Example includes_ex : includes "chateau abc" "abc" = true.
Proof. reflexivity. Qed.

Example run_ex :
  snd (run Mem.init [OpAdd (red2020 0 []) "t"; OpDelete 1;
                     OpAdd (red2020 0 []) "t"]) = [1; 2].
Proof. reflexivity. Qed.

(* ------------------------------------------------------------------ *)
(** * Lemmas on the JavaScript helpers *)

Definition is_substring (q s : string) : Prop :=
  exists a b, s = String.append a (String.append q b).

Lemma append_String (c : ascii) (s t : string) :
  String.append (String c s) t = String c (String.append s t).
Proof. reflexivity. Qed.

Lemma append_Empty (t : string) : String.append EmptyString t = t.
Proof. reflexivity. Qed.

Lemma prefix_spec (q s : string) :
  String.prefix q s = true <-> exists b, s = String.append q b.
Proof.
  revert s; induction q as [|c q IH]; intros s.
  - destruct s; simpl; (split; [intros _; eexists; reflexivity | auto]).
  - destruct s as [|c' s]; simpl.
    + split; [discriminate | intros [b Hb]; discriminate].
    + destruct (ascii_dec c c') as [->|Hne].
      * rewrite IH. split; intros [b Hb]; exists b; rewrite ?append_String in *; congruence.
      * split; [discriminate | intros [b Hb]; rewrite ?append_String in *; congruence].
Qed.

Lemma includes_unfold (s q : string) :
  includes s q =
  (String.prefix q s ||
   match s with EmptyString => false | String _ s' => includes s' q end)%bool.
Proof. destruct s; reflexivity. Qed.

Lemma includes_spec (s q : string) :
  includes s q = true <-> is_substring q s.
Proof.
  unfold is_substring.
  induction s as [|c s IH];
    rewrite includes_unfold, Bool.orb_true_iff, prefix_spec.
  - split.
    + intros [[b Hb] | H]; [exists EmptyString, b; exact Hb | discriminate].
    + intros [a [b Hab]]. destruct a as [|c' a]; [left; exists b; exact Hab |].
      rewrite append_String in Hab. discriminate.
  - rewrite IH. split.
    + intros [[b Hb] | [a [b Hab]]].
      * exists EmptyString, b. exact Hb.
      * exists (String c a), b. rewrite append_String. congruence.
    + intros [a [b Hab]]. destruct a as [|c' a].
      * left. exists b. exact Hab.
      * right. exists a, b. rewrite append_String in Hab. congruence.
Qed.

Lemma includes_empty (s : string) : includes s "" = true.
Proof. destruct s; reflexivity. Qed.

Lemma truthy_spec (s : string) : truthy s = true <-> s <> "".
Proof.
  unfold truthy. rewrite Bool.negb_true_iff.
  destruct (String.eqb_spec s "").
  - split; [discriminate | contradiction].
  - split; auto.
Qed.

Lemma filter_all {A} (f : A -> bool) (l : list A) :
  (forall x, f x = true) -> List.filter f l = l.
Proof. intros Hf. induction l as [|x l IH]; simpl; [done | by rewrite Hf, IH]. Qed.

Lemma values_In {A} (m : gmap Z A) (x : A) :
  In x (Mem.values m) <-> exists k, m !! k = Some x.
Proof.
  unfold Mem.values. rewrite <- list_elem_of_In, list_elem_of_fmap. split.
  - intros [[k y] [-> Hin]]. exists k. by apply elem_of_map_to_list.
  - intros [k Hk]. exists (k, x). split; [done |]. by apply elem_of_map_to_list.
Qed.

(* ------------------------------------------------------------------ *)
(** * C4: catalog search *)

(** C4 (corrected). The search matches any entry whose lower-cased name,
    or non-empty lower-cased producer, contains the lower-cased query; the
    empty query is contained in every string, so [searchWineCatalog ""]
    returns the whole catalog. *)
Theorem searchWineCatalog_spec :
  (forall s, searchWineCatalog s "" = getWineCatalog s) /\
  (forall s q e,
     In e (searchWineCatalog s q) <->
     In e (getWineCatalog s) /\
     (is_substring (toLowerCase q) (toLowerCase (cat_name e)) \/
      exists p, cat_producer e = Some p /\ p <> "" /\
                is_substring (toLowerCase q) (toLowerCase p))).
Proof.
  split.
  - intros s. unfold searchWineCatalog, getWineCatalog. apply filter_all.
    intros e. unfold catalog_matches. simpl. by rewrite includes_empty.
  - intros s q e. unfold searchWineCatalog, getWineCatalog.
    rewrite filter_In. unfold catalog_matches.
    rewrite Bool.orb_true_iff, includes_spec. apply and_iff_compat_l.
    apply or_iff_compat_l. destruct (cat_producer e) as [p|].
    + rewrite Bool.andb_true_iff, truthy_spec, includes_spec. split.
      * intros [Hp Hs]. exists p. auto.
      * intros [p' [Hp' [Hne Hs]]]. injection Hp' as <-. auto.
    + split; [discriminate | intros [p [Hp _]]; discriminate].
Qed.

(** C4 counterexample: on a catalog holding one entry, the empty query
    returns that entry rather than an empty sequence. *)
Lemma searchWineCatalog_empty_query_cex :
  searchWineCatalog (Mem.mkMemStorage ∅ {[1 := sample_entry]} 1 2) ""
  = [sample_entry] /\ [sample_entry] <> [].
Proof. split; [reflexivity | discriminate]. Qed.

(* ------------------------------------------------------------------ *)
(** * Stock fields on write (C1, C2) *)

(** [vintageStocks.reduce((sum, v) => sum + v.stock, 0)] *)
Definition sum_stock (vs : list VintageStock) : Z :=
  fold_right (fun v acc => stock v + acc) 0 vs.

Lemma updateWine_found (s : Mem.MemStorage) (i : Z) (p : WinePatch) (old : Wine) :
  Mem.wineStore s !! i = Some old ->
  Mem.updateWine s i p =
  (Mem.mkMemStorage (<[i := apply_patch old p]> (Mem.wineStore s))
     (Mem.catalogStore s) (Mem.wineCurrentId s) (Mem.catalogCurrentId s),
   Some (apply_patch old p)).
Proof. intros H. unfold Mem.updateWine. by rewrite H. Qed.

(** C1 (corrected). The store never recomputes [stockLevel]: [addWine]
    stores the caller's [stockLevel] and [vintageStocks] unchanged, and
    [updateWine] takes each of them from the patch when the key is present
    and keeps the stored value otherwise. *)
Theorem stockLevel_stored_as_supplied :
  (forall s w now,
     let '(s', nw) := Mem.addWine s w now in
     Mem.wineStore s' !! id nw = Some nw /\
     stockLevel nw = ins_stockLevel w /\
     vintageStocks nw = ins_vintageStocks w) /\
  (forall s i p old,
     Mem.wineStore s !! i = Some old ->
     let '(s', r) := Mem.updateWine s i p in
     exists nw, r = Some nw /\ Mem.wineStore s' !! i = Some nw /\
       stockLevel nw =
         match p_stockLevel p with Some v => v | None => stockLevel old end /\
       vintageStocks nw =
         match p_vintageStocks p with Some v => v | None => vintageStocks old end).
Proof.
  split.
  - intros s w now. simpl. split; [apply lookup_insert_eq | split; reflexivity].
  - intros s i p old H. rewrite (updateWine_found s i p old H).
    exists (apply_patch old p). simpl.
    split; [done | split; [apply lookup_insert_eq |]].
    unfold spread. split; reflexivity.
Qed.

Lemma stockLevel_stored_as_supplied_witness :
  Mem.wineStore (Mem.mkMemStorage {[1 := sample_wine 1 "u1"]} ∅ 2 1) !! 1
    = Some (sample_wine 1 "u1") /\
  (let '(s', r) := Mem.updateWine (Mem.mkMemStorage {[1 := sample_wine 1 "u1"]} ∅ 2 1) 1
                     emptyPatch in
   exists nw, r = Some nw /\ Mem.wineStore s' !! 1 = Some nw /\
     stockLevel nw = stockLevel (sample_wine 1 "u1") /\
     vintageStocks nw = vintageStocks (sample_wine 1 "u1")).
Proof.
  split; [reflexivity |].
  exact (proj2 stockLevel_stored_as_supplied
           (Mem.mkMemStorage {[1 := sample_wine 1 "u1"]} ∅ 2 1) 1 emptyPatch
           (sample_wine 1 "u1") eq_refl).
Defined.

(** C1 counterexample: creating a Red wine with [stockLevel = 0] and
    [vintageStocks = [{vintage: 2020, stock: 3}]] stores [stockLevel = 0],
    not the sum 3. *)
Lemma stockLevel_not_recomputed_cex :
  let '(s', nw) := Mem.addWine Mem.init (red2020 0 [mkVintageStock 2020 3]) "t" in
  Mem.wineStore s' !! 1 = Some nw /\ category nw = "Red" /\
  vintageStocks nw = Some [mkVintageStock 2020 3] /\
  stockLevel nw = Some 0 /\
  stockLevel nw <> Some (sum_stock [mkVintageStock 2020 3]).
Proof. simpl. repeat split; try reflexivity. discriminate. Qed.

(** C2 (corrected). The store keeps [vintageStocks] exactly as written:
    [addWine] stores the caller's list (duplicate years included) and an
    [updateWine] whose patch carries [vintageStocks] replaces the stored
    list by the patch's list; no years are merged by the store. *)
Theorem vintageStocks_stored_as_supplied :
  (forall s w now,
     let '(s', nw) := Mem.addWine s w now in
     Mem.wineStore s' !! id nw = Some nw /\
     vintageStocks nw = ins_vintageStocks w) /\
  (forall s i p old vs,
     Mem.wineStore s !! i = Some old ->
     p_vintageStocks p = Some vs ->
     let '(s', r) := Mem.updateWine s i p in
     exists nw, r = Some nw /\ Mem.wineStore s' !! i = Some nw /\
       vintageStocks nw = vs).
Proof.
  split.
  - intros s w now. simpl. split; [apply lookup_insert_eq | reflexivity].
  - intros s i p old vs H Hp. rewrite (updateWine_found s i p old H).
    exists (apply_patch old p). split; [done | split; [apply lookup_insert_eq |]].
    simpl. unfold spread. by rewrite Hp.
Qed.

Definition patch_vintages (vs : list VintageStock) : WinePatch :=
  mkWinePatch None None None None None None None None None (Some (Some vs))
    None None None.

Lemma vintageStocks_stored_as_supplied_witness :
  Mem.wineStore (Mem.mkMemStorage {[1 := sample_wine 1 "u1"]} ∅ 2 1) !! 1
    = Some (sample_wine 1 "u1") /\
  p_vintageStocks (patch_vintages [mkVintageStock 2020 2])
    = Some (Some [mkVintageStock 2020 2]) /\
  (let '(s', r) := Mem.updateWine (Mem.mkMemStorage {[1 := sample_wine 1 "u1"]} ∅ 2 1) 1
                     (patch_vintages [mkVintageStock 2020 2]) in
   exists nw, r = Some nw /\ Mem.wineStore s' !! 1 = Some nw /\
     vintageStocks nw = Some [mkVintageStock 2020 2]).
Proof.
  split; [reflexivity | split; [reflexivity |]].
  exact (proj2 vintageStocks_stored_as_supplied
           (Mem.mkMemStorage {[1 := sample_wine 1 "u1"]} ∅ 2 1) 1
           (patch_vintages [mkVintageStock 2020 2]) (sample_wine 1 "u1")
           (Some [mkVintageStock 2020 2]) eq_refl eq_refl).
Defined.

(** C2 counterexample: a second write for 2020 with stock 2 onto the
    stored [{vintage: 2020, stock: 3}] leaves [{vintage: 2020, stock: 2}]
    (replaced, not merged to 5), and a create with two 2020 entries stores
    both of them. *)
Lemma duplicate_vintage_years_cex :
  (let '(s1, w1) := Mem.addWine Mem.init (red2020 3 [mkVintageStock 2020 3]) "t" in
   let '(s2, r) := Mem.updateWine s1 (id w1) (patch_vintages [mkVintageStock 2020 2]) in
   option_map vintageStocks (Mem.wineStore s2 !! id w1)
     = Some (Some [mkVintageStock 2020 2])) /\
  (let '(s1, w1) := Mem.addWine Mem.init
                      (red2020 5 [mkVintageStock 2020 3; mkVintageStock 2020 2]) "t" in
   option_map vintageStocks (Mem.wineStore s1 !! id w1)
     = Some (Some [mkVintageStock 2020 3; mkVintageStock 2020 2])).
Proof. split; reflexivity. Qed.

(* ------------------------------------------------------------------ *)
(** * Partial update (C7) *)




(* ------------------------------------------------------------------ *)
(** * Delete (C8) *)

(** [MemStorage.deleteWine] answers whether the id was present, and the
    id is gone afterwards. *)
Lemma mem_deleteWine_spec (s : Mem.MemStorage) (i : Z) :
  let '(s', b) := Mem.deleteWine s i in
  (b = true <-> is_Some (Mem.getWineById s i)) /\
  Mem.getWineById s' i = None /\
  (Mem.getWineById s i = None -> snd (Mem.deleteWine s' i) = false).
Proof.
  unfold Mem.deleteWine, Mem.getWineById; simpl.
  split; [by rewrite bool_decide_eq_true |].
  split; [apply lookup_delete_eq |].
  intros _. simpl. rewrite lookup_delete_eq. reflexivity.
Qed.

(** [DatabaseStorage.deleteWine] removes the id. *)
Lemma db_deleteWine_removes (db : Db.DbState) (i : Z) :
  Db.getWineById (fst (Db.deleteWine db i)) i = None.
Proof.
  unfold Db.getWineById, Db.deleteWine; simpl.
  induction (Db.wines_tbl db) as [|w ws IH]; simpl; [done |].
  destruct (Z.eqb_spec (id w) i); simpl; [done |].
  destruct (Z.eqb_spec (id w) i); [contradiction | exact IH].
Qed.

(** C8 (code bug in [DatabaseStorage.deleteWine]). On a table without id 7,
    [deleteWine(7)] returns [true] on both of two consecutive calls,
    because [!!result] is true for every query result object; the
    [DELETE /api/wines/:id] handler then answers 204 instead of 404. *)
Theorem db_deleteWine_absent_returns_true :
  let db := Db.mkDbState [sample_wine 1 "u1"] 2 [] 1 in
  let '(db1, r1) := Db.deleteWine db 7 in
  let '(db2, r2) := Db.deleteWine db1 7 in
  Db.getWineById db 7 = None /\ r1 = true /\ r2 = true.
Proof. repeat split. Qed.

(* ------------------------------------------------------------------ *)
(** * Listing by owner (C5) *)

Definition two_owner_store : Mem.MemStorage :=
  Mem.mkMemStorage (<[2 := sample_wine 2 "b"]> {[1 := sample_wine 1 "a"]}) ∅ 3 1.

(** [GET /api/wines] returns every record, whatever the owner. *)
Lemma get_wines_all (o : option string) (s : Mem.MemStorage) :
  Routes.get_wines o s = Ok200Wines (Mem.getWines s).
Proof. reflexivity. Qed.

(** C5 (code bug in [getWines]). For the authenticated owner ["a"], the
    handler passes ["a"] to [getWines], which declares no parameter and
    returns the wine of owner ["b"] as well. *)
Theorem get_wines_owner_not_filtered :
  exists ws, Routes.get_wines (Some "a") two_owner_store = Ok200Wines ws /\
    In (sample_wine 2 "b") ws /\ userId (sample_wine 2 "b") <> "a".
Proof.
  eexists. split; [reflexivity |]. split; [| discriminate].
  vm_compute. auto.
Qed.

(* ------------------------------------------------------------------ *)
(** * Id assignment in the in-memory store (C10) *)

Definition ids_below (s : Mem.MemStorage) : Prop :=
  forall k, is_Some (Mem.wineStore s !! k) -> k < Mem.wineCurrentId s.

Lemma ids_below_add (s : Mem.MemStorage) (w : InsertWine) (now : string) :
  ids_below s -> ids_below (fst (Mem.addWine s w now)).
Proof.
  intros H k. simpl. rewrite lookup_insert. case_decide as Hk.
  - intros _. lia.
  - intros Hs. specialize (H k Hs). lia.
Qed.

Lemma ids_below_update (s : Mem.MemStorage) (i : Z) (p : WinePatch) :
  ids_below s -> ids_below (fst (Mem.updateWine s i p)).
Proof.
  intros H k. unfold Mem.updateWine.
  destruct (Mem.wineStore s !! i) as [old|] eqn:Hi; simpl; [| apply H].
  rewrite lookup_insert. case_decide as Hk.
  - intros _. subst k. apply H. by rewrite Hi.
  - apply H.
Qed.

Lemma ids_below_delete (s : Mem.MemStorage) (i : Z) :
  ids_below s -> ids_below (fst (Mem.deleteWine s i)).
Proof.
  intros H k. simpl. rewrite lookup_delete. case_decide; [by intros [] | apply H].
Qed.

Lemma run_ids (ops : list WineOp) : forall s : Mem.MemStorage,
  ids_below s ->
  let '(s', ids) := run s ops in
  StronglySorted Z.lt ids /\
  Forall (fun i => Mem.wineCurrentId s <= i < Mem.wineCurrentId s') ids /\
  Mem.wineCurrentId s <= Mem.wineCurrentId s' /\ ids_below s'.
Proof.
  induction ops as [|op ops IH]; intros s Hs; simpl.
  - split; [constructor | split; [constructor | split; [lia | exact Hs]]].
  - destruct op as [w now | i p | i].
    + pose proof (IH (fst (Mem.addWine s w now)) (ids_below_add s w now Hs)) as IH1.
      simpl in IH1 |- *.
      destruct (run _ ops) as [s2 ids].
      destruct IH1 as [Hsort [Hall [Hle Hb]]].
      split; [| split; [| split; [lia | exact Hb]]].
      * constructor; [exact Hsort |].
        eapply Forall_impl; [exact Hall | simpl; lia].
      * constructor; [lia |]. eapply Forall_impl; [exact Hall | simpl; lia].
    + pose proof (IH (fst (Mem.updateWine s i p)) (ids_below_update s i p Hs)) as IH1.
      assert (Hc : Mem.wineCurrentId (fst (Mem.updateWine s i p)) = Mem.wineCurrentId s).
      { unfold Mem.updateWine. by destruct (Mem.wineStore s !! i). }
      rewrite Hc in IH1. exact IH1.
    + exact (IH (fst (Mem.deleteWine s i)) (ids_below_delete s i Hs)).
Qed.

(** C10 (confirmed). Over any run of creates, updates and deletes from a
    fresh in-memory store, the ids assigned by [addWine] are strictly
    increasing and below the counter, every stored key is below the
    counter, and the next [addWine] takes an id that no earlier create
    assigned and no stored record has, deleted ids included. *)
Theorem addWine_ids_increasing (ops : list WineOp) :
  let '(s', ids) := run Mem.init ops in
  StronglySorted Z.lt ids /\
  Forall (fun i => 1 <= i < Mem.wineCurrentId s') ids /\
  (forall k, is_Some (Mem.wineStore s' !! k) -> k < Mem.wineCurrentId s') /\
  (forall w now,
     let nid := id (snd (Mem.addWine s' w now)) in
     ~ In nid ids /\ Mem.wineStore s' !! nid = None).
Proof.
  pose proof (run_ids ops Mem.init) as H.
  assert (H0 : ids_below Mem.init) by (intros k; simpl; by intros []).
  specialize (H H0). destruct (run Mem.init ops) as [s' ids].
  destruct H as [Hsort [Hall [_ Hb]]].
  split; [exact Hsort | split; [exact Hall | split; [exact Hb |]]].
  intros w now; simpl. split.
  - intros Hin. rewrite List.Forall_forall in Hall. specialize (Hall _ Hin). simpl in Hall. lia.
  - destruct (Mem.wineStore s' !! Mem.wineCurrentId s') eqn:E; [| done].
    assert (Hlt := Hb (Mem.wineCurrentId s')). rewrite E in Hlt.
    specialize (Hlt ltac:(done)). lia.
Qed.

(* ------------------------------------------------------------------ *)
(** * Validation at the write boundary (C9) *)

(** [WineCategory] of shared/schema.ts. *)
Definition WineCategory : list string :=
  ["Red"; "White"; "Rose"; "Fortified"; "Beer"; "Cider"; "Whiskies"; "Other"].

Definition rating_out_of_range (r : option Z) : Prop :=
  exists v, r = Some v /\ (v < 1 \/ 5 < v).

Lemma rating_ok_false (r : option Z) :
  rating_ok r = false <-> rating_out_of_range r.
Proof.
  unfold rating_ok, rating_out_of_range. destruct r as [v|].
  - rewrite Bool.andb_false_iff, !Z.leb_gt. split.
    + intros Hv. exists v. split; [done | lia].
    + intros [v' [Hv' Hr]]. injection Hv' as <-. lia.
  - split; [discriminate | intros [v [Hv _]]; discriminate].
Qed.

Definition int32_out_of_range (o : option Z) : Prop :=
  exists n, o = Some n /\ (n < -2147483648 \/ 2147483647 < n).

Lemma stockLevel_ok_false (o : option Z) :
  stockLevel_ok o = false <-> int32_out_of_range o.
Proof.
  unfold stockLevel_ok, int32_ok, int32_out_of_range. destruct o as [n|].
  - rewrite Bool.andb_false_iff, !Z.leb_gt. split.
    + intros Hn. exists n. split; [done | lia].
    + intros [n' [Hn' Hr]]. injection Hn' as <-. lia.
  - split; [discriminate | intros [n [Hn _]]; discriminate].
Qed.

Lemma present_ok_false {A} (f : A -> bool) (P : A -> Prop) (o : option A) :
  (forall v, f v = false <-> P v) ->
  present_ok f o = false <-> exists v, o = Some v /\ P v.
Proof.
  intros Hf. destruct o as [v|]; simpl.
  - rewrite Hf. split; [intros H; by exists v | intros [v' [Hv H]]; by injection Hv as <-].
  - split; [discriminate | intros [v [Hv _]]; discriminate].
Qed.

Lemma insertWineSchema_safeParse_false (w : InsertWine) :
  insertWineSchema_safeParse w = false <->
  rating_out_of_range (ins_rating w) \/ int32_out_of_range (ins_stockLevel w).
Proof.
  unfold insertWineSchema_safeParse.
  by rewrite Bool.andb_false_iff, rating_ok_false, stockLevel_ok_false.
Qed.

Lemma insertWineSchema_partial_safeParse_false (p : WinePatch) :
  insertWineSchema_partial_safeParse p = false <->
  (exists r, p_rating p = Some r /\ rating_out_of_range r) \/
  (exists o, p_stockLevel p = Some o /\ int32_out_of_range o).
Proof.
  unfold insertWineSchema_partial_safeParse.
  rewrite Bool.andb_false_iff.
  rewrite (present_ok_false _ _ _ rating_ok_false).
  by rewrite (present_ok_false _ _ _ stockLevel_ok_false).
Qed.

(** C9 (corrected). [POST /api/wines] and [PATCH /api/wines/:id] answer
    400 exactly when a rating is present and outside [1,5] or a
    [stockLevel] is present and outside the 32-bit range of its [integer]
    column, and then leave the store unchanged; nothing about the category
    or the vintageStocks values is checked. *)
Theorem write_boundary_validation :
  (forall s sub body now,
     snd (Routes.post_wine s sub body now) = BadRequest400 <->
     rating_out_of_range (ins_rating body) \/
     int32_out_of_range (ins_stockLevel body)) /\
  (forall s sub body now,
     snd (Routes.post_wine s sub body now) = BadRequest400 ->
     fst (Routes.post_wine s sub body now) = s) /\
  (forall s i body,
     snd (Routes.patch_wine s i body) = BadRequest400 <->
     (exists r, p_rating body = Some r /\ rating_out_of_range r) \/
     (exists o, p_stockLevel body = Some o /\ int32_out_of_range o)) /\
  (forall s i body,
     snd (Routes.patch_wine s i body) = BadRequest400 ->
     fst (Routes.patch_wine s i body) = s).
Proof.
  split; [| split; [| split]].
  - intros s sub body now. unfold Routes.post_wine.
    rewrite <- insertWineSchema_safeParse_false.
    destruct (insertWineSchema_safeParse body); simpl; split; congruence.
  - intros s sub body now. unfold Routes.post_wine.
    destruct (insertWineSchema_safeParse body); simpl; [discriminate | done].
  - intros s i body. unfold Routes.patch_wine.
    rewrite <- insertWineSchema_partial_safeParse_false.
    destruct (insertWineSchema_partial_safeParse body).
    + destruct (Mem.updateWine s i body) as [s' [w|]]; simpl; split; discriminate.
    + simpl. split; done.
  - intros s i body. unfold Routes.patch_wine.
    destruct (insertWineSchema_partial_safeParse body); simpl; [| done].
    destruct (Mem.updateWine s i body) as [s' [w|]]; simpl; discriminate.
Qed.

Definition body_rating (r : Z) : InsertWine :=
  mkInsertWine "u1" "Rioja" "Red" None None None None None (Some 1) None None
    (Some r) None.

Definition body_stock (n : Z) : InsertWine :=
  mkInsertWine "u1" "Rioja" "Red" None None None None None (Some n) None None
    None None.

Lemma write_boundary_validation_witness :
  snd (Routes.post_wine Mem.init "u1" (body_rating 9) "t") = BadRequest400 /\
  fst (Routes.post_wine Mem.init "u1" (body_rating 9) "t") = Mem.init /\
  snd (Routes.post_wine Mem.init "u1" (body_stock 2147483648) "t") = BadRequest400.
Proof.
  split; [reflexivity | split].
  - exact (proj1 (proj2 write_boundary_validation) Mem.init "u1" (body_rating 9) "t"
             eq_refl).
  - apply (proj2 (proj1 write_boundary_validation Mem.init "u1" (body_stock 2147483648) "t")).
    right. exists 2147483648. split; [reflexivity | lia].
Defined.

(** A body whose category is not one of [WineCategory] and whose only
    vintage entry has year 9999 and stock -1. *)
Definition unchecked_body : InsertWine :=
  mkInsertWine "u1" "Mystery" "Sparkling" None None None None None (Some 0)
    (Some [mkVintageStock 9999 (-1)]) None None None.

(** C9 counterexample: this body is accepted (201) and stored as given. *)
Lemma validation_accepts_unchecked_fields_cex :
  ~ In "Sparkling" WineCategory /\
  (let '(s', r) := Routes.post_wine Mem.init "u1" unchecked_body "t" in
   exists w, r = Created201 w /\ Mem.wineStore s' !! 1 = Some w /\
     category w = "Sparkling" /\
     vintageStocks w = Some [mkVintageStock 9999 (-1)]).
Proof.
  split.
  - simpl. intros H. repeat destruct H as [H|H]; try discriminate; exact H.
  - simpl. eexists. split; [reflexivity |]. split; [reflexivity |].
    split; reflexivity.
Qed.

(* ------------------------------------------------------------------ *)
(** * Catalog refresh (C3, C6) *)

Definition catalog_values (e : WineCatalog)
  : string * string * option string * option string * option string :=
  (cat_name e, cat_category e, cat_producer e, cat_region e, cat_country e).

Lemma insert_entries_values (rs : list CsvRecord) : forall seq,
  map catalog_values (fst (Db.insert_entries seq rs))
  = map (fun r => catalog_values (Db.db_entry 0 r)) rs.
Proof.
  induction rs as [|r rs IH]; intros seq; simpl; [done |].
  specialize (IH (seq + 1)). destruct (Db.insert_entries (seq + 1) rs) as [es seq'].
  simpl in *. by rewrite IH.
Qed.

(** When the CSV file exists, [DatabaseStorage] replaces the catalog by one
    entry per record, with the [|| ''], [|| 'Other'] and [|| null]
    defaults. *)
Lemma db_refresh_values (db : Db.DbState) (fs : FileSystem) (rs : list CsvRecord) :
  csvFile fs = Some rs ->
  map catalog_values (Db.getWineCatalog (fst (Db.loadWineCatalogFromCSV db fs)))
  = map (fun r => catalog_values (Db.db_entry 0 r)) rs.
Proof.
  intros H. unfold Db.loadWineCatalogFromCSV. rewrite H.
  destruct (Nat.ltb 0 (length rs)) eqn:E.
  - pose proof (insert_entries_values rs (Db.catalog_seq db)) as Hv.
    destruct (Db.insert_entries (Db.catalog_seq db) rs) as [tbl seq]. exact Hv.
  - destruct rs; [done | discriminate].
Qed.

(** When the CSV file exists and parses to the records [rs],
    [DatabaseStorage.loadWineCatalogFromCSV] replaces the catalog table:
    whatever the order the SELECT returns, the catalog afterwards holds the
    values of the records of [rs], each as often as it occurs there, and
    nothing else (ids apart); the wines are untouched and no file is
    written. *)
Theorem db_refresh_replaces (db : Db.DbState) (fs : FileSystem) (rs : list CsvRecord) :
  csvFile fs = Some rs ->
  Permutation
    (map catalog_values (Db.getWineCatalog (fst (Db.loadWineCatalogFromCSV db fs))))
    (map (fun r => catalog_values (Db.db_entry 0 r)) rs) /\
  Db.wines_tbl (fst (Db.loadWineCatalogFromCSV db fs)) = Db.wines_tbl db /\
  snd (Db.loadWineCatalogFromCSV db fs) = fs.
Proof.
  intros H. split; [rewrite (db_refresh_values db fs rs H); reflexivity |].
  unfold Db.loadWineCatalogFromCSV. rewrite H.
  destruct (if Nat.ltb 0 (length rs) then _ else _) as [tbl seq]. split; reflexivity.
Qed.

(** On a missing file both stores create the header-only file once, and two
    refreshes in a row leave their catalog as it was. *)
Lemma refresh_missing_file_twice (s : Mem.MemStorage) (db : Db.DbState) (w : nat) :
  let fs0 := mkFileSystem None w in
  let fs1 := mkFileSystem (Some []) (S w) in
  MemCatalog.loadWineCatalogFromCSV s fs0 = (s, fs1) /\
  MemCatalog.loadWineCatalogFromCSV s fs1 = (s, fs1) /\
  Db.loadWineCatalogFromCSV db fs0 = (db, fs1) /\
  Db.loadWineCatalogFromCSV db fs1 = (Db.mkDbState (Db.wines_tbl db)
                                        (Db.wines_seq db) [] (Db.catalog_seq db), fs1).
Proof. destruct s; repeat split. Qed.

Definition mem_with_entry : Mem.MemStorage :=
  Mem.mkMemStorage ∅ {[1 := sample_entry]} 1 2.

Definition db_with_entry : Db.DbState := Db.mkDbState [] 1 [sample_entry] 2.

(** C3 (code bug: the catalog is not replaced). [MemStorage] never clears
    [catalogStore], so refreshing from a one-row file keeps the prior entry
    next to the new one; [DatabaseStorage] returns early when the file is
    missing, so the prior entry survives although the created source has
    no row. *)
Theorem refresh_keeps_prior_entries :
  (let '(s1, _) := MemCatalog.loadWineCatalogFromCSV mem_with_entry
                     (mkFileSystem (Some [sample_row]) 1) in
   In sample_entry (getWineCatalog s1) /\
   In (MemCatalog.mem_entry 2 sample_row) (getWineCatalog s1) /\
   length (getWineCatalog s1) = 2%nat) /\
  (let '(db1, fs1) := Db.loadWineCatalogFromCSV db_with_entry (mkFileSystem None 0) in
   csvFile fs1 = Some [] /\ Db.getWineCatalog db1 = [sample_entry]).
Proof.
  split.
  - vm_compute. split; [auto | split; [auto | reflexivity]].
  - split; reflexivity.
Qed.

(** C6 (code bug, the defect of C3). With one entry already in the catalog
    and no CSV file, two refreshes in a row write the header-only file once
    and succeed, but the first one leaves the prior entry in place instead
    of zero entries: [DatabaseStorage] clears the table only on the second
    call, which finds the file, and [MemStorage] keeps the entry on both. *)
Theorem refresh_missing_file_keeps_entries :
  (let '(db1, fs1) := Db.loadWineCatalogFromCSV db_with_entry (mkFileSystem None 0) in
   let '(db2, fs2) := Db.loadWineCatalogFromCSV db1 fs1 in
   fileWrites fs2 = 1%nat /\ csvFile fs2 = Some [] /\
   Db.getWineCatalog db1 = [sample_entry] /\ Db.getWineCatalog db2 = []) /\
  (let '(s1, fs1) := MemCatalog.loadWineCatalogFromCSV mem_with_entry
                       (mkFileSystem None 0) in
   let '(s2, fs2) := MemCatalog.loadWineCatalogFromCSV s1 fs1 in
   fileWrites fs2 = 1%nat /\
   getWineCatalog s1 = [sample_entry] /\ getWineCatalog s2 = [sample_entry]).
Proof. split; repeat split. Qed.

(* ------------------------------------------------------------------ *)
(** * Further properties of the stores and handlers *)

(** [getWinesByCategory] (and its handler) return exactly the stored
    records whose category equals the given string, whatever user id the
    handler passes. *)
Theorem getWinesByCategory_spec (s : Mem.MemStorage) (c : string)
  (o : option string) (w : Wine) :
  Routes.get_wines_by_category c o s = Ok200Wines (Mem.getWinesByCategory s c) /\
  (In w (Mem.getWinesByCategory s c) <->
   (exists k, Mem.wineStore s !! k = Some w) /\ category w = c).
Proof.
  split; [reflexivity |].
  unfold Mem.getWinesByCategory. rewrite filter_In, values_In, String.eqb_eq.
  reflexivity.
Qed.

(** [addWine] then [getWineById] of the returned id gives the new record,
    stamped with that id and [createdAt]; every other id reads as before
    and the counter moves up by one. *)
Theorem addWine_getWineById (s : Mem.MemStorage) (w : InsertWine) (now : string) :
  let '(s', nw) := Mem.addWine s w now in
  Mem.getWineById s' (id nw) = Some nw /\
  id nw = Mem.wineCurrentId s /\ createdAt nw = now /\
  Mem.wineCurrentId s' = Mem.wineCurrentId s + 1 /\
  (forall j, j <> id nw -> Mem.getWineById s' j = Mem.getWineById s j).
Proof.
  unfold Mem.getWineById; simpl.
  split; [apply lookup_insert_eq |].
  split; [done | split; [done | split; [done |]]].
  intros j Hj. by apply lookup_insert_ne.
Qed.

(** [MemStorage.deleteWine] answers whether the id was present, the id is
    gone afterwards (so a second delete answers false), and every other id
    reads as before. *)
Theorem mem_deleteWine_frame (s : Mem.MemStorage) (i : Z) :
  let '(s', b) := Mem.deleteWine s i in
  (b = true <-> is_Some (Mem.getWineById s i)) /\
  Mem.getWineById s' i = None /\
  snd (Mem.deleteWine s' i) = false /\
  (forall j, j <> i -> Mem.getWineById s' j = Mem.getWineById s j).
Proof.
  unfold Mem.deleteWine, Mem.getWineById; simpl.
  split; [by rewrite bool_decide_eq_true |].
  split; [apply lookup_delete_eq |].
  split; [rewrite lookup_delete_eq; reflexivity |].
  intros j Hj. by apply lookup_delete_ne.
Qed.

(** With [MemStorage] as the storage, [DELETE /api/wines/:id] answers 204
    exactly when [GET /api/wines/:id] found the record and 404 otherwise;
    after either answer, [GET] and a repeated [DELETE] answer 404. (The
    exported [storage] is a [DatabaseStorage], whose [deleteWine] answers
    true for a missing id too, so there [DELETE] always answers 204.) *)
Theorem delete_route_then_get (s : Mem.MemStorage) (i : Z) :
  let '(s', r) := Routes.delete_wine s i in
  (r = NoContent204 <-> Routes.get_wine s i <> NotFound404) /\
  (r = NotFound404 <-> Routes.get_wine s i = NotFound404) /\
  Routes.get_wine s' i = NotFound404 /\
  snd (Routes.delete_wine s' i) = NotFound404.
Proof.
  unfold Routes.delete_wine, Routes.get_wine, Mem.deleteWine, Mem.getWineById; simpl.
  rewrite lookup_delete_eq. simpl.
  destruct (Mem.wineStore s !! i) eqn:E; simpl.
  - split; [split; [intros _; discriminate | done] |].
    split; [split; discriminate | done].
  - split; [split; [discriminate | intros H; contradiction] |].
    split; [split; done | done].
Qed.

Definition two_owner_db : Db.DbState :=
  Db.mkDbState [sample_wine 1 "a"; sample_wine 2 "b"] 3 [] 1.

(** [DatabaseStorage.deleteWine] removes exactly the rows with the id:
    afterwards the id is not found and every other id reads as before. *)
Theorem db_deleteWine_frame (db : Db.DbState) (i j : Z) :
  Db.getWineById (fst (Db.deleteWine db i)) i = None /\
  (j <> i -> Db.getWineById (fst (Db.deleteWine db i)) j = Db.getWineById db j).
Proof.
  split; [apply db_deleteWine_removes |].
  intros Hji. unfold Db.getWineById, Db.deleteWine; simpl.
  induction (Db.wines_tbl db) as [|w ws IH]; simpl; [done |].
  destruct (Z.eqb_spec (id w) i) as [Hi|Hi]; simpl.
  - rewrite IH. destruct (Z.eqb_spec (id w) j); [congruence | done].
  - destruct (Z.eqb_spec (id w) j); [done | exact IH].
Qed.

Lemma db_deleteWine_frame_witness :
  Db.getWineById (fst (Db.deleteWine two_owner_db 1)) 2
  = Db.getWineById two_owner_db 2.
Proof. apply (proj2 (db_deleteWine_frame two_owner_db 1 2)). lia. Defined.

Lemma load_records_spec (rs : list CsvRecord) :
  forall (store : gmap Z WineCatalog) (cur : Z),
  let '(store', cur') := MemCatalog.load_records store cur rs in
  cur' = cur + Z.of_nat (length rs) /\
  (forall k, k < cur \/ cur + Z.of_nat (length rs) <= k -> store' !! k = store !! k) /\
  (forall (n : nat) r, rs !! n = Some r ->
     store' !! (cur + Z.of_nat n) = Some (MemCatalog.mem_entry (cur + Z.of_nat n) r)).
Proof.
  induction rs as [|r rs IH]; intros store cur; simpl.
  - split; [lia | split; [done | intros n r' H; done]].
  - specialize (IH (<[cur := MemCatalog.mem_entry cur r]> store) (cur + 1)).
    destruct (MemCatalog.load_records _ (cur + 1) rs) as [store' cur'].
    destruct IH as [Hc [Hout Hin]].
    split; [lia | split].
    + intros k Hk. rewrite Hout by lia. rewrite lookup_insert_ne by lia. done.
    + intros [|n] r' H; simpl in H.
      * injection H as <-. rewrite Hout by lia. rewrite Z.add_0_r.
        apply lookup_insert_eq.
      * specialize (Hin n r' H).
        replace (cur + Z.of_nat (S n)) with (cur + 1 + Z.of_nat n) by lia.
        exact Hin.
Qed.

(** When the CSV file exists, [MemStorage.loadWineCatalogFromCSV] leaves the
    file and the wine store alone, gives the n-th record the id
    [catalogCurrentId + n] with the [|| ''] and [|| 'Other'] defaults,
    advances the counter by the number of records and keeps every other
    catalog entry. *)
Theorem mem_refresh_existing_file (s : Mem.MemStorage) (fs : FileSystem)
  (rs : list CsvRecord) :
  csvFile fs = Some rs ->
  let '(s', fs') := MemCatalog.loadWineCatalogFromCSV s fs in
  fs' = fs /\ Mem.wineStore s' = Mem.wineStore s /\
  Mem.catalogCurrentId s' = Mem.catalogCurrentId s + Z.of_nat (length rs) /\
  (forall (n : nat) r, rs !! n = Some r ->
     Mem.catalogStore s' !! (Mem.catalogCurrentId s + Z.of_nat n)
     = Some (MemCatalog.mem_entry (Mem.catalogCurrentId s + Z.of_nat n) r)) /\
  (forall k, k < Mem.catalogCurrentId s \/
             Mem.catalogCurrentId s + Z.of_nat (length rs) <= k ->
     Mem.catalogStore s' !! k = Mem.catalogStore s !! k).
Proof.
  intros H. destruct fs as [f w]; simpl in H; subst f.
  unfold MemCatalog.loadWineCatalogFromCSV, ensure_csv; simpl.
  pose proof (load_records_spec rs (Mem.catalogStore s) (Mem.catalogCurrentId s)) as L.
  destruct (MemCatalog.load_records (Mem.catalogStore s) (Mem.catalogCurrentId s) rs)
    as [store' cur'].
  destruct L as [Hc [Hout Hin]]. simpl.
  split; [done | split; [done | split; [exact Hc | split; [exact Hin | exact Hout]]]].
Qed.

Lemma mem_refresh_existing_file_witness :
  csvFile (mkFileSystem (Some [sample_row]) 1) = Some [sample_row] /\
  (let '(s', fs') := MemCatalog.loadWineCatalogFromCSV mem_with_entry
                       (mkFileSystem (Some [sample_row]) 1) in
   fs' = mkFileSystem (Some [sample_row]) 1 /\
   Mem.wineStore s' = Mem.wineStore mem_with_entry /\
   Mem.catalogCurrentId s' = Mem.catalogCurrentId mem_with_entry + Z.of_nat 1 /\
   (forall (n : nat) r, [sample_row] !! n = Some r ->
      Mem.catalogStore s' !! (Mem.catalogCurrentId mem_with_entry + Z.of_nat n)
      = Some (MemCatalog.mem_entry (Mem.catalogCurrentId mem_with_entry + Z.of_nat n) r)) /\
   (forall k, k < Mem.catalogCurrentId mem_with_entry \/
              Mem.catalogCurrentId mem_with_entry + Z.of_nat 1 <= k ->
      Mem.catalogStore s' !! k = Mem.catalogStore mem_with_entry !! k)).
Proof.
  split; [reflexivity |].
  exact (mem_refresh_existing_file mem_with_entry (mkFileSystem (Some [sample_row]) 1)
           [sample_row] eq_refl).
Defined.

(* ------------------------------------------------------------------ *)
(** * Client-side stock logic (client/src) *)

Module Client.

Definition years (vs : list VintageStock) : list Z := map vintage vs.

(** [VintageManager.handleAddVintage] (components/WineCard.tsx): the list
    passed to [onChange] when adding [stock] bottles of year [y]. *)
Definition handleAddVintage (vs : list VintageStock) (y s : Z) : list VintageStock :=
  if existsb (fun v => Z.eqb (vintage v) y) vs then
    map (fun v => if Z.eqb (vintage v) y
                  then mkVintageStock (vintage v) (stock v + s) else v) vs
  else vs ++ [mkVintageStock y s].

(** [VintageManager.handleRemoveVintage] *)
Definition handleRemoveVintage (vs : list VintageStock) (y : Z) : list VintageStock :=
  List.filter (fun v => negb (Z.eqb (vintage v) y)) vs.

(** [VintageManager.handleStockChange] *)
Definition handleStockChange (vs : list VintageStock) (y n : Z) : list VintageStock :=
  if n <=? 0 then handleRemoveVintage vs y
  else map (fun v => if Z.eqb (vintage v) y then mkVintageStock (vintage v) n else v) vs.

(** [Array.prototype.sort] with the comparator [(a, b) => a.vintage -
    b.vintage]; the sort is stable, so inserting each element, left to
    right, after the elements with a smaller or equal year gives its
    result. *)
Fixpoint insert_by_vintage (v : VintageStock) (l : list VintageStock) : list VintageStock :=
  match l with
  | [] => [v]
  | x :: l' => if vintage v <? vintage x then v :: l else x :: insert_by_vintage v l'
  end.

Definition sort_by_vintage (l : list VintageStock) : list VintageStock :=
  fold_left (fun acc v => insert_by_vintage v acc) l [].

(** [WineCard.activeVintages]: the entries with stock > 0, by year. *)
Definition activeVintages (vs : list VintageStock) : list VintageStock :=
  match vs with
  | [] => []
  | _ => sort_by_vintage (List.filter (fun v => 0 <? stock v) vs)
  end.

(** [vintages.reduce((sum, v) => sum + v.stock, 0)] *)
Definition reduce_stock (vs : list VintageStock) : Z :=
  fold_left (fun acc v => acc + stock v) vs 0.

(** The bottles one wine contributes in [WineInventory.bottlesPerCategory]:
    the sum of its vintage stocks when it has some, else
    [wine.stockLevel || 0]. *)
Definition wine_bottles (w : Wine) : Z :=
  match vintageStocks w with
  | Some ((_ :: _) as vs) => reduce_stock vs
  | _ => match stockLevel w with Some n => n | None => 0 end
  end.

(** The own properties of the [Record<string, Wine[]>] accumulator, as an
    association list in key insertion order: [acc[c].push(wine)] on an own
    key, and the new key [c] with [[wine]] otherwise. *)
Fixpoint add_to_group (acc : list (string * list Wine)) (w : Wine)
  : list (string * list Wine) :=
  match acc with
  | [] => [(category w, [w])]
  | (c, ws) :: acc' =>
      if String.eqb c (category w) then (c, ws ++ [w]) :: acc'
      else (c, ws) :: add_to_group acc' w
  end.

(** The properties of [Object.prototype]; the accumulator starts as [{}],
    so [acc[c]] reads them when [c] is not an own key. *)
Definition object_prototype_keys : list string :=
  ["constructor"; "__defineGetter__"; "__defineSetter__"; "hasOwnProperty";
   "__lookupGetter__"; "__lookupSetter__"; "isPrototypeOf";
   "propertyIsEnumerable"; "toString"; "valueOf"; "__proto__";
   "toLocaleString"].

Definition inherited (c : string) : bool :=
  existsb (String.eqb c) object_prototype_keys.

Fixpoint assoc {A} (k : string) (l : list (string * A)) : option A :=
  match l with
  | [] => None
  | (c, a) :: l' => if String.eqb c k then Some a else assoc k l'
  end.

(** The reducer of [WineInventory.winesByCategory]; [None] when it throws.
    An own key holds an array (truthy). An inherited key reads a function
    or [Object.prototype] (truthy), so no array is created and
    [acc[c].push] is [undefined]: a TypeError. *)
Definition push_wine (acc : list (string * list Wine)) (w : Wine)
  : option (list (string * list Wine)) :=
  match assoc (category w) acc with
  | Some _ => Some (add_to_group acc w)
  | None => if inherited (category w) then None else Some (add_to_group acc w)
  end.

(** [WineInventory.winesByCategory]: [wines.reduce(push, {})] ([{}] for
    no wines); [None] when the reduce throws. *)
Definition winesByCategory (wines : list Wine) : option (list (string * list Wine)) :=
  fold_left (fun acc w => match acc with Some a => push_wine a w | None => None end)
    wines (Some []).

(** [WineInventory.bottlesPerCategory] over [Object.entries(winesByCategory)]. *)
Definition bottlesPerCategory (wines : list Wine) : option (list (string * Z)) :=
  option_map
    (map (fun '(c, ws) => (c, fold_left (fun total w => total + wine_bottles w) ws 0)))
    (winesByCategory wines).


(** The form values [stockLevel] and [vintageStocks] of the add page. *)
Record FormData := mkFormData {
  f_stockLevel : Z;
  f_vintageStocks : option (list VintageStock)
}.

(** [AddWine.handleVintageStocksChange] (pages/AddWine.tsx). *)
Definition handleVintageStocksChange (vs : list VintageStock) : FormData :=
  mkFormData (reduce_stock vs) (Some vs).

(** The [handleVintageStocksChange] of the catalog-aware add page: entries
    later than the current year are dropped first. *)
Definition handleVintageStocksChange_filtered (currentYear : Z)
  (vs : list VintageStock) : FormData :=
  let validVintages := List.filter (fun v => vintage v <=? currentYear) vs in
  mkFormData (reduce_stock validVintages) (Some validVintages).

(** [AddWine.onSubmit] before the POST: a vintage-tracked wine with stock
    and no vintages gets one entry for the current year. *)
Definition onSubmit_data (isVintageApplicable : bool) (currentYear : Z)
  (d : FormData) : FormData :=
  let empty := match f_vintageStocks d with None | Some [] => true | _ => false end in
  if (isVintageApplicable && (0 <? f_stockLevel d) && empty)%bool then
    mkFormData (f_stockLevel d) (Some [mkVintageStock currentYear (f_stockLevel d)])
  else d.



End Client.

(* ------------------------------------------------------------------ *)
(** * Properties of the client-side stock logic *)

Lemma reduce_stock_acc (vs : list VintageStock) (a : Z) :
  fold_left (fun acc v => acc + stock v) vs a = a + sum_stock vs.
Proof.
  revert a; induction vs as [|v vs IH]; intros a; simpl; [lia |].
  rewrite IH. lia.
Qed.

Lemma reduce_stock_sum (vs : list VintageStock) : Client.reduce_stock vs = sum_stock vs.
Proof. unfold Client.reduce_stock. rewrite reduce_stock_acc. lia. Qed.

Lemma sum_stock_app (l1 l2 : list VintageStock) :
  sum_stock (l1 ++ l2) = sum_stock l1 + sum_stock l2.
Proof. induction l1 as [|v l1 IH]; simpl; lia. Qed.

Lemma years_map (f : VintageStock -> VintageStock) (vs : list VintageStock) :
  (forall v, vintage (f v) = vintage v) -> Client.years (map f vs) = Client.years vs.
Proof.
  intros Hf. unfold Client.years. rewrite map_map. apply map_ext. exact Hf.
Qed.

Lemma map_no_year (f : VintageStock -> VintageStock) (y : Z) (vs : list VintageStock) :
  ~ In y (Client.years vs) ->
  map (fun v => if Z.eqb (vintage v) y then f v else v) vs = vs.
Proof.
  induction vs as [|v vs IH]; simpl; intros Hn; [done |].
  destruct (Z.eqb_spec (vintage v) y); [exfalso; apply Hn; auto |].
  f_equal. apply IH. auto.
Qed.

Lemma existsb_year (y : Z) (vs : list VintageStock) :
  existsb (fun v => Z.eqb (vintage v) y) vs = true <-> In y (Client.years vs).
Proof.
  unfold Client.years. rewrite existsb_exists, in_map_iff. split.
  - intros [v [Hv He]]. apply Z.eqb_eq in He. eauto.
  - intros [v [He Hv]]. exists v. split; [done | by apply Z.eqb_eq].
Qed.

Lemma sum_add_to_year (y s : Z) (vs : list VintageStock) :
  NoDup (Client.years vs) -> In y (Client.years vs) ->
  sum_stock (map (fun v => if Z.eqb (vintage v) y
                           then mkVintageStock (vintage v) (stock v + s) else v) vs)
  = sum_stock vs + s.
Proof.
  induction vs as [|v vs IH]; simpl; intros Hnd Hin; [contradiction |].
  apply NoDup_cons in Hnd as [Hv Hnd].
  destruct (Z.eqb_spec (vintage v) y) as [<-|Hne]; simpl.
  - rewrite map_no_year; [lia |]. intros H. apply Hv. by apply list_elem_of_In.
  - destruct Hin as [Hin | Hin]; [congruence |]. rewrite IH by done. lia.
Qed.

(** [VintageManager.handleAddVintage] keeps the years of the list distinct
    when they were: a year already present gets its stock increased, a new
    year is appended; either way the total grows by exactly the added
    stock and the year is present afterwards. *)
Theorem handleAddVintage_spec (vs : list VintageStock) (y s : Z) :
  NoDup (Client.years vs) ->
  let vs' := Client.handleAddVintage vs y s in
  NoDup (Client.years vs') /\
  (forall z, In z (Client.years vs') <-> z = y \/ In z (Client.years vs)) /\
  sum_stock vs' = sum_stock vs + s.
Proof.
  intros Hnd. unfold Client.handleAddVintage.
  destruct (existsb _ vs) eqn:E.
  - apply existsb_year in E. rewrite years_map by (intros v; by destruct (Z.eqb _ _)).
    split; [exact Hnd | split; [intros z; split; [auto | intros [->|H]; auto] |]].
    by apply sum_add_to_year.
  - assert (Hy : ~ In y (Client.years vs)) by (rewrite <- existsb_year; congruence).
    unfold Client.years in *. rewrite map_app. simpl.
    split; [| split].
    + apply NoDup_app. split; [exact Hnd | split; [| apply NoDup_singleton]].
      intros x Hx Hx'. apply list_elem_of_singleton in Hx' as ->.
      apply Hy. by apply list_elem_of_In.
    + intros z. rewrite in_app_iff. simpl. intuition.
    + rewrite sum_stock_app. simpl. lia.
Qed.

Lemma handleAddVintage_spec_witness :
  NoDup (Client.years [mkVintageStock 2020 3]) /\
  sum_stock (Client.handleAddVintage [mkVintageStock 2020 3] 2020 2)
  = sum_stock [mkVintageStock 2020 3] + 2.
Proof.
  assert (H : NoDup (Client.years [mkVintageStock 2020 3]))
    by (apply (bool_decide_unpack _); vm_compute; reflexivity).
  split; [exact H |].
  exact (proj2 (proj2 (handleAddVintage_spec [mkVintageStock 2020 3] 2020 2 H))).
Defined.

Lemma years_filter_NoDup (f : VintageStock -> bool) (vs : list VintageStock) :
  NoDup (Client.years vs) -> NoDup (Client.years (List.filter f vs)).
Proof.
  induction vs as [|v vs IH]; simpl; intros Hnd; [constructor |].
  apply NoDup_cons in Hnd as [Hv Hnd].
  destruct (f v); simpl; [| by apply IH].
  apply NoDup_cons. split; [| by apply IH].
  intros Hin. apply Hv. rewrite list_elem_of_In in *.
  unfold Client.years in *. apply in_map_iff in Hin as [w [<- Hw]].
  apply filter_In in Hw as [Hw _]. by apply in_map.
Qed.

(** [VintageManager.handleRemoveVintage] drops every entry of the year and
    keeps all the others, in order; distinct years stay distinct. *)
Theorem handleRemoveVintage_spec (vs : list VintageStock) (y : Z) :
  (forall v, In v (Client.handleRemoveVintage vs y) <-> In v vs /\ vintage v <> y) /\
  ~ In y (Client.years (Client.handleRemoveVintage vs y)) /\
  (NoDup (Client.years vs) -> NoDup (Client.years (Client.handleRemoveVintage vs y))).
Proof.
  unfold Client.handleRemoveVintage. split; [| split].
  - intros v. rewrite filter_In, Bool.negb_true_iff, Z.eqb_neq. reflexivity.
  - unfold Client.years. rewrite in_map_iff. intros [v [Hv Hin]].
    apply filter_In in Hin as [_ H]. apply Bool.negb_true_iff, Z.eqb_neq in H. done.
  - apply years_filter_NoDup.
Qed.

Lemma handleRemoveVintage_spec_witness :
  NoDup (Client.years [mkVintageStock 2019 1; mkVintageStock 2020 3]) /\
  NoDup (Client.years (Client.handleRemoveVintage
                         [mkVintageStock 2019 1; mkVintageStock 2020 3] 2020)).
Proof.
  assert (H : NoDup (Client.years [mkVintageStock 2019 1; mkVintageStock 2020 3])).
  { apply (bool_decide_unpack _); vm_compute; reflexivity. }
  split; [exact H |].
  exact (proj2 (proj2 (handleRemoveVintage_spec _ 2020)) H).
Defined.

(** [VintageManager.handleStockChange]: a stock of zero or less removes the
    year; a positive stock keeps the years exactly as they were and sets the
    stock of that year's entries to the new value. *)
Theorem handleStockChange_spec (vs : list VintageStock) (y n : Z) :
  (n <= 0 -> Client.handleStockChange vs y n = Client.handleRemoveVintage vs y) /\
  (0 < n ->
   Client.years (Client.handleStockChange vs y n) = Client.years vs /\
   forall v, In v (Client.handleStockChange vs y n) -> vintage v = y -> stock v = n).
Proof.
  unfold Client.handleStockChange. split.
  - intros Hn. destruct (Z.leb_spec n 0); [done | lia].
  - intros Hn. destruct (Z.leb_spec n 0); [lia |]. split.
    + apply years_map. intros v. by destruct (Z.eqb _ _).
    + intros v Hin Hy. apply in_map_iff in Hin as [u [<- Hu]].
      destruct (Z.eqb_spec (vintage u) y); [done |]. simpl in Hy. congruence.
Qed.

Lemma handleStockChange_spec_witness :
  Client.years (Client.handleStockChange [mkVintageStock 2020 3] 2020 5)
  = Client.years [mkVintageStock 2020 3].
Proof. apply (proj2 (handleStockChange_spec [mkVintageStock 2020 3] 2020 5)). lia. Defined.

Definition vintage_le (a b : VintageStock) : Prop := vintage a <= vintage b.

Lemma insert_by_vintage_perm (v : VintageStock) (l : list VintageStock) :
  Permutation (Client.insert_by_vintage v l) (v :: l).
Proof.
  induction l as [|x l IH]; simpl; [done |].
  destruct (Z.ltb_spec (vintage v) (vintage x)); [done |].
  rewrite IH. apply perm_swap.
Qed.

Lemma insert_by_vintage_hd (y v : VintageStock) (l : list VintageStock) :
  HdRel vintage_le y l -> vintage_le y v -> HdRel vintage_le y (Client.insert_by_vintage v l).
Proof.
  destruct l as [|x l]; simpl; intros H Hyv; [by constructor |].
  destruct (Z.ltb_spec (vintage v) (vintage x)); constructor; [exact Hyv |].
  by inversion H.
Qed.

Lemma insert_by_vintage_sorted (v : VintageStock) (l : list VintageStock) :
  Sorted vintage_le l -> Sorted vintage_le (Client.insert_by_vintage v l).
Proof.
  induction l as [|x l IH]; simpl; intros H; [by repeat constructor |].
  destruct (Z.ltb_spec (vintage v) (vintage x)).
  - constructor; [exact H | constructor; unfold vintage_le; lia].
  - inversion H as [|? ? Hl Hx]; subst. constructor; [by apply IH |].
    apply insert_by_vintage_hd; [exact Hx | unfold vintage_le; lia].
Qed.

Lemma sort_by_vintage_acc (l acc : list VintageStock) :
  Sorted vintage_le acc ->
  Sorted vintage_le (fold_left (fun acc v => Client.insert_by_vintage v acc) l acc) /\
  Permutation (fold_left (fun acc v => Client.insert_by_vintage v acc) l acc) (l ++ acc).
Proof.
  revert acc; induction l as [|v l IH]; intros acc Hs; simpl; [done |].
  destruct (IH (Client.insert_by_vintage v acc) (insert_by_vintage_sorted v acc Hs))
    as [H1 H2].
  split; [exact H1 |]. rewrite H2, insert_by_vintage_perm. symmetry. apply Permutation_middle.
Qed.

(** [WineCard.activeVintages] lists exactly the entries with a positive
    stock (as a permutation, nothing dropped or duplicated), in
    non-decreasing year order. *)
Theorem activeVintages_spec (vs : list VintageStock) :
  Sorted vintage_le (Client.activeVintages vs) /\
  Permutation (Client.activeVintages vs) (List.filter (fun v => 0 <? stock v) vs) /\
  Forall (fun v => 0 < stock v) (Client.activeVintages vs).
Proof.
  assert (Hmain : Sorted vintage_le (Client.sort_by_vintage (List.filter (fun v => 0 <? stock v) vs)) /\
                  Permutation (Client.sort_by_vintage (List.filter (fun v => 0 <? stock v) vs))
                              (List.filter (fun v => 0 <? stock v) vs)).
  { destruct (sort_by_vintage_acc (List.filter (fun v => 0 <? stock v) vs) [] ltac:(constructor))
      as [H1 H2].
    split; [exact H1 |]. rewrite app_nil_r in H2. exact H2. }
  assert (Hequiv : Client.activeVintages vs
                   = Client.sort_by_vintage (List.filter (fun v => 0 <? stock v) vs)).
  { by destruct vs. }
  rewrite Hequiv. destruct Hmain as [Hs Hp].
  split; [exact Hs | split; [exact Hp |]].
  apply List.Forall_forall. intros v Hv.
  apply (Permutation_in _ Hp), filter_In in Hv as [_ H]. lia.
Qed.

(* Inventory grouping *)

Definition opt_app {A} (o : option (list A)) (l : list A) : option (list A) :=
  match o, l with
  | Some a, _ => Some (a ++ l)
  | None, [] => None
  | None, _ => Some l
  end.

Lemma assoc_add_to_group (c : string) (acc : list (string * list Wine)) (w : Wine) :
  Client.assoc c (Client.add_to_group acc w) =
  if String.eqb (category w) c then opt_app (Client.assoc c acc) [w]
  else Client.assoc c acc.
Proof.
  induction acc as [|[k ws] acc IH]; simpl.
  - by destruct (String.eqb (category w) c).
  - destruct (String.eqb_spec k (category w)) as [->|Hk]; simpl.
    + destruct (String.eqb (category w) c); done.
    + rewrite IH. destruct (String.eqb_spec k c) as [->|Hkc];
        destruct (String.eqb_spec (category w) c); congruence.
Qed.

Lemma assoc_fold_add (c : string) (ws : list Wine) : forall acc,
  Client.assoc c (fold_left Client.add_to_group ws acc) =
  opt_app (Client.assoc c acc) (List.filter (fun w => String.eqb (category w) c) ws).
Proof.
  induction ws as [|w ws IH]; intros acc; simpl.
  - destruct (Client.assoc c acc); simpl; by rewrite ?app_nil_r.
  - rewrite IH, assoc_add_to_group. destruct (String.eqb (category w) c).
    + destruct (Client.assoc c acc); simpl; [by rewrite <- app_assoc | done].
    + done.
Qed.

Lemma assoc_map {A B} (g : A -> B) (c : string) (l : list (string * A)) :
  Client.assoc c (map (fun '(k, a) => (k, g a)) l) = option_map g (Client.assoc c l).
Proof.
  induction l as [|[k a] l IH]; simpl; [done |].
  destruct (String.eqb k c); [done | exact IH].
Qed.

Lemma fold_bottles (ws : list Wine) (a : Z) :
  fold_left (fun total w => total + Client.wine_bottles w) ws a
  = a + fold_right (fun w acc => Client.wine_bottles w + acc) 0 ws.
Proof. revert a; induction ws as [|w ws IH]; intros a; simpl; [lia | rewrite IH; lia]. Qed.

Lemma inherited_spec (c : string) :
  Client.inherited c = true <-> In c Client.object_prototype_keys.
Proof.
  unfold Client.inherited. rewrite existsb_exists. split.
  - intros [k [Hk Heq]]. apply String.eqb_eq in Heq. by subst k.
  - intros Hin. exists c. split; [exact Hin | apply String.eqb_refl].
Qed.

(** No own key of the accumulator is an inherited one. *)
Definition keys_ok (a : list (string * list Wine)) : Prop :=
  Forall (fun kv => Client.inherited (fst kv) = false) a.

Lemma assoc_inherited (a : list (string * list Wine)) (c : string) :
  keys_ok a -> Client.inherited c = true -> Client.assoc c a = None.
Proof.
  induction a as [|[k ws] a IH]; intros Hok Hc; simpl; [done |].
  inversion Hok as [|kv l Hk Hok']; subst. simpl in Hk.
  destruct (String.eqb_spec k c) as [->|_]; [congruence | by apply IH].
Qed.

Lemma add_keys_ok (a : list (string * list Wine)) (w : Wine) :
  keys_ok a -> Client.inherited (category w) = false -> keys_ok (Client.add_to_group a w).
Proof.
  induction a as [|[k ws] a IH]; intros Hok Hw; simpl.
  - by constructor.
  - inversion Hok as [|kv l Hk Hok']; subst.
    destruct (String.eqb k (category w)); constructor; simpl in *;
      try assumption; by apply IH.
Qed.

Definition inventory_step (acc : option (list (string * list Wine))) (w : Wine) :=
  match acc with Some a => Client.push_wine a w | None => None end.

Lemma fold_step_none (ws : list Wine) : fold_left inventory_step ws None = None.
Proof. induction ws as [|w ws IH]; [done | exact IH]. Qed.

Lemma fold_step_spec (ws : list Wine) : forall a, keys_ok a ->
  (fold_left inventory_step ws (Some a) = None <->
   exists w, In w ws /\ Client.inherited (category w) = true) /\
  ((forall w, In w ws -> Client.inherited (category w) = false) ->
   fold_left inventory_step ws (Some a) = Some (fold_left Client.add_to_group ws a)).
Proof.
  induction ws as [|w ws IH]; intros a Hok; simpl.
  - split; [split; [discriminate | intros [w [[] _]]] | done].
  - destruct (Client.inherited (category w)) eqn:Hw.
    + assert (Hp : Client.push_wine a w = None).
      { unfold Client.push_wine. by rewrite (assoc_inherited a _ Hok Hw), Hw. }
      rewrite Hp, fold_step_none. split.
      * split; [intros _; exists w; split; [left; reflexivity | exact Hw] | done].
      * intros Hall. specialize (Hall w (or_introl eq_refl)). congruence.
    + assert (Hp : Client.push_wine a w = Some (Client.add_to_group a w)).
      { unfold Client.push_wine. rewrite Hw. by destruct (Client.assoc _ a). }
      rewrite Hp.
      destruct (IH (Client.add_to_group a w) (add_keys_ok a w Hok Hw)) as [Hn Hsome].
      split.
      * rewrite Hn. split.
        -- intros [w' [Hin Hw']]. exists w'. split; [right; exact Hin | exact Hw'].
        -- intros [w' [[<-|Hin] Hw']]; [congruence | by exists w'].
      * intros Hall. apply Hsome. intros w' Hin. apply Hall. by right.
Qed.

(** [WineInventory]: the grouping throws (a TypeError) exactly when some
    wine's category is a property of [Object.prototype]. Otherwise the
    group of a category holds exactly the wines of that category, in list
    order (no group when there is none), and its bottle total is the sum
    over those wines of their vintage stocks when they have some, else of
    their [stockLevel || 0]. *)
Theorem inventory_groups_spec (ws : list Wine) (c : string) :
  let group := List.filter (fun w => String.eqb (category w) c) ws in
  (Client.winesByCategory ws = None <->
   exists w, In w ws /\ In (category w) Client.object_prototype_keys) /\
  ((forall w, In w ws -> ~ In (category w) Client.object_prototype_keys) ->
   exists g b,
     Client.winesByCategory ws = Some g /\ Client.bottlesPerCategory ws = Some b /\
     Client.assoc c g = (match group with [] => None | _ => Some group end) /\
     Client.assoc c b =
       (match group with
        | [] => None
        | _ => Some (fold_right (fun w acc => Client.wine_bottles w + acc) 0 group)
        end)) /\
  (forall w vs, vintageStocks w = Some vs -> vs <> [] ->
     Client.wine_bottles w = sum_stock vs).
Proof.
  simpl. destruct (fold_step_spec ws [] (List.Forall_nil _)) as [Hnone Hsome].
  split; [| split].
  - unfold Client.winesByCategory. fold inventory_step.
    rewrite Hnone. split.
    + intros [w [Hin Hw]]. exists w. split; [exact Hin | by apply inherited_spec].
    + intros [w [Hin Hw]]. exists w. split; [exact Hin | by apply inherited_spec].
  - intros Hall.
    assert (Hg : Client.winesByCategory ws = Some (fold_left Client.add_to_group ws [])).
    { unfold Client.winesByCategory. fold inventory_step. apply Hsome.
      intros w Hin. specialize (Hall w Hin).
      destruct (Client.inherited (category w)) eqn:E; [| done].
      exfalso. apply Hall. by apply inherited_spec. }
    eexists _, _. split; [exact Hg |].
    split; [unfold Client.bottlesPerCategory; rewrite Hg; reflexivity |].
    rewrite assoc_map, !assoc_fold_add. simpl.
    split.
    + by destruct (List.filter _ ws).
    + destruct (List.filter _ ws) as [|w l]; [done |]. simpl. f_equal.
      rewrite fold_bottles. simpl. lia.
  - intros w vs Hv Hne. unfold Client.wine_bottles. rewrite Hv.
    destruct vs as [|v vs]; [contradiction |]. apply reduce_stock_sum.
Qed.

Lemma inventory_groups_spec_witness :
  exists g b,
    Client.winesByCategory [sample_wine 1 "a"] = Some g /\
    Client.bottlesPerCategory [sample_wine 1 "a"] = Some b /\
    Client.assoc "Red" g = Some [sample_wine 1 "a"] /\ Client.assoc "Red" b = Some 3.
Proof.
  assert (H : forall w, In w [sample_wine 1 "a"] ->
                ~ In (category w) Client.object_prototype_keys).
  { intros w [<- | []] Hin. apply inherited_spec in Hin. vm_compute in Hin.
    discriminate Hin. }
  destruct (proj1 (proj2 (inventory_groups_spec [sample_wine 1 "a"] "Red")) H)
    as [g [b [H1 [H2 [H3 H4]]]]].
  exists g, b. split; [exact H1 | split; [exact H2 |]].
  split; [rewrite H3; reflexivity | rewrite H4; reflexivity].
Defined.

(** A wine whose category is [toString] makes the grouping throw. *)
Example winesByCategory_toString_ex :
  Client.winesByCategory
    [sample_wine 1 "a"; mkWine 2 "a" "Odd" "toString" None None None None None
       (Some 1) None None None None "t"] = None.
Proof. vm_compute. reflexivity. Qed.

Example wine_bottles_ex :
  Client.wine_bottles (mkWine 1 "a" "Rioja" "Red" None None None None None (Some 0)
     (Some [mkVintageStock 2020 3; mkVintageStock 2019 2]) None None None "t") = 5.
Proof. reflexivity. Qed.

(** The add pages keep [stockLevel] equal to the sum of the form's vintage
    stocks (the catalog-aware page first drops entries later than the
    current year, keeping the others), and [onSubmit] sends, for a
    vintage-tracked wine with stock, a non-empty vintage list whose stocks
    sum to [stockLevel]: a consistent form stays so, an empty one gets
    one entry for the current year. *)
Theorem add_form_stock_consistent :
  (forall vs,
     Client.f_vintageStocks (Client.handleVintageStocksChange vs) = Some vs /\
     Client.f_stockLevel (Client.handleVintageStocksChange vs) = sum_stock vs) /\
  (forall y vs,
     exists kept,
       Client.f_vintageStocks (Client.handleVintageStocksChange_filtered y vs) = Some kept /\
       (forall v, In v kept <-> In v vs /\ vintage v <= y) /\
       Client.f_stockLevel (Client.handleVintageStocksChange_filtered y vs) = sum_stock kept) /\
  (forall y d,
     0 < Client.f_stockLevel d ->
     (forall vs, Client.f_vintageStocks d = Some vs -> vs <> [] ->
        Client.f_stockLevel d = sum_stock vs) ->
     let d' := Client.onSubmit_data true y d in
     Client.f_stockLevel d' = Client.f_stockLevel d /\
     exists vs', Client.f_vintageStocks d' = Some vs' /\ vs' <> [] /\
       sum_stock vs' = Client.f_stockLevel d').
Proof.
  split; [| split].
  - intros vs. simpl. split; [done | apply reduce_stock_sum].
  - intros y vs. eexists. split; [reflexivity | split].
    + intros v. rewrite filter_In, Z.leb_le. reflexivity.
    + simpl. apply reduce_stock_sum.
  - intros y [sl ovs] Hpos Hcons. simpl in *.
    unfold Client.onSubmit_data; simpl.
    destruct (Z.ltb_spec 0 sl) as [_|]; [| lia]. simpl.
    destruct ovs as [[|v vs]|]; simpl.
    + split; [done |]. eexists. split; [reflexivity | split; [discriminate | simpl; lia]].
    + split; [done |]. exists (v :: vs). split; [done | split; [discriminate |]].
      symmetry. by apply Hcons.
    + split; [done |]. eexists. split; [reflexivity | split; [discriminate | simpl; lia]].
Qed.

Lemma add_form_stock_consistent_witness :
  0 < Client.f_stockLevel (Client.mkFormData 6 None) /\
  Client.f_stockLevel (Client.onSubmit_data true 2024 (Client.mkFormData 6 None)) = 6 /\
  exists vs', Client.f_vintageStocks (Client.onSubmit_data true 2024 (Client.mkFormData 6 None))
              = Some vs' /\ vs' <> [] /\
     sum_stock vs' = Client.f_stockLevel (Client.onSubmit_data true 2024 (Client.mkFormData 6 None)).
Proof.
  split; [reflexivity |].
  exact (proj2 (proj2 add_form_stock_consistent) 2024 (Client.mkFormData 6 None)
           eq_refl (fun vs H _ => ltac:(discriminate H))).
Defined.



Lemma db_refresh_replaces_witness :
  csvFile (mkFileSystem (Some [sample_row]) 0) = Some [sample_row] /\
  Permutation
    (map catalog_values
       (Db.getWineCatalog (fst (Db.loadWineCatalogFromCSV db_with_entry
                                  (mkFileSystem (Some [sample_row]) 0)))))
    (map (fun r => catalog_values (Db.db_entry 0 r)) [sample_row]).
Proof.
  split; [reflexivity |].
  exact (proj1 (db_refresh_replaces db_with_entry (mkFileSystem (Some [sample_row]) 0)
                  [sample_row] eq_refl)).
Defined.
